(** * PaperNavigator: extraction of bibliographic records from GROBID TEI-XML

    A shallow embedding of [src/extractors/reference_parser.py].

    The program reads a TEI-XML file with BeautifulSoup and then walks the
    resulting tree with [find], [find_all], [get], [text] and [get_text].
    The tree and these accessors are modelled below the way the library
    documents them; [parse_author] and the body of [parse_grobid_xml] are
    translated statement by statement. *)

From stdpp Require Import base option list strings gmap pretty.
From Stdlib Require Import Ascii String.

Set Warnings "-register-all".
Open Scope string_scope.
Open Scope list_scope.

(** ** Python strings

    A Python [str] is a sequence of code points.  The model keeps the code
    points below 256, one per [ascii]. *)

Module PyStr.

(** [str.isspace] on the code points below 256: TAB..CR, FS..US, SPACE,
    NEL (0x85) and NBSP (0xA0). *)
Definition isspace (c : ascii) : bool :=
  let n := nat_of_ascii c in
  (Nat.leb 9 n && Nat.leb n 13) || (Nat.leb 28 n && Nat.leb n 32)
  || Nat.eqb n 133 || Nat.eqb n 160.

Definition is_empty (s : string) : bool :=
  match s with EmptyString => true | String _ _ => false end.

(** Truthiness of a string: [if s:] holds for a non-empty string. *)
Definition truthy (s : string) : bool := negb (is_empty s).

Fixpoint lstrip (s : string) : string :=
  match s with
  | EmptyString => EmptyString
  | String c s' => if isspace c then lstrip s' else s
  end.

Fixpoint rstrip (s : string) : string :=
  match s with
  | EmptyString => EmptyString
  | String c s' =>
      let r := rstrip s' in
      if isspace c && is_empty r then EmptyString else String c r
  end.

(** [s.strip()] *)
Definition strip (s : string) : string := rstrip (lstrip s).

(** [s.startswith(p)] *)
Fixpoint startswith (p s : string) : bool :=
  match p, s with
  | EmptyString, _ => true
  | String a p', String b s' => if Ascii.eqb a b then startswith p' s' else false
  | String _ _, EmptyString => false
  end.

(** [s.split(sep)] for a one-character separator: the pieces between the
    occurrences of [sep], never an empty list. *)
Fixpoint split (sep : ascii) (s : string) : list string :=
  match s with
  | EmptyString => [EmptyString]
  | String c s' =>
      if Ascii.eqb c sep then EmptyString :: split sep s'
      else match split sep s' with
           | [] => [String c EmptyString]
           | p :: ps => String c p :: ps
           end
  end.

(** [l[0]] on the result of [split], which is never empty. *)
Definition item0 (l : list string) : string :=
  match l with [] => EmptyString | p :: _ => p end.

(** [sep.join(l)] *)
Fixpoint join (sep : string) (l : list string) : string :=
  match l with
  | [] => EmptyString
  | [s] => s
  | s :: l' => s +:+ sep +:+ join sep l'
  end.

End PyStr.

(** ** The document tree

    BeautifulSoup's tree: a [Tag] has a name, a dictionary of attributes and
    a list of children; the other page elements are strings.  Comments are
    strings that [text] and [get_text] leave out. *)

Inductive node : Type :=
| NavigableString (s : string)
| Comment (s : string)
| Tag (name : string) (attrs : gmap string string) (contents : list node).

(** The [BeautifulSoup] object is itself a tag, named [[document]], whose
    children are the top-level nodes of the file. *)
Definition BeautifulSoup (roots : list node) : node :=
  Tag "[document]" ∅ roots.

Module Soup.

Definition is_tag (n : node) : bool :=
  match n with Tag _ _ _ => true | _ => false end.

Definition name (n : node) : string :=
  match n with Tag nm _ _ => nm | _ => EmptyString end.

Definition attrs (n : node) : gmap string string :=
  match n with Tag _ a _ => a | _ => ∅ end.

Definition contents (n : node) : list node :=
  match n with Tag _ _ cs => cs | _ => [] end.

(** [tag.get(key, default)] *)
Definition get (n : node) (key default : string) : string :=
  match attrs n !! key with Some v => v | None => default end.

(** [tag.descendants]: every node below [n], in document order
    (a node before its children, children from left to right). *)
Fixpoint descendants (n : node) : list node :=
  match n with
  | Tag _ _ cs =>
      (fix below (l : list node) : list node :=
         match l with
         | [] => []
         | c :: l' => c :: descendants c ++ below l'
         end) cs
  | _ => []
  end.

(** One search criterion of [find]/[find_all]: the tag name and the
    attribute values asked for, each compared for equality. *)
Definition attr_matches (n : node) (kv : string * string) : bool :=
  match attrs n !! kv.1 with
  | Some v => String.eqb v kv.2
  | None => false
  end.

Definition matches (nm : string) (want : list (string * string)) (n : node) : bool :=
  is_tag n && String.eqb (name n) nm && forallb (attr_matches n) want.

(** [tag.find_all(name, attrs)] and [tag.find_all(name, recursive=False)] *)
Definition find_all (nm : string) (want : list (string * string)) (scope : node)
  : list node :=
  List.filter (matches nm want) (descendants scope).

Definition find_all_children (nm : string) (want : list (string * string))
  (scope : node) : list node :=
  List.filter (matches nm want) (contents scope).

(** [tag.find(name, attrs)]: the first result of [find_all], or [None]. *)
Definition find (nm : string) (want : list (string * string)) (scope : node)
  : option node :=
  head (find_all nm want scope).

(** The strings [text] and [get_text] run over: those of the descendants,
    comments left out; with [strip=True] each one is stripped and dropped
    when nothing is left. *)
Definition own_string (n : node) : option string :=
  match n with NavigableString s => Some s | _ => None end.

Definition all_strings (strip : bool) (n : node) : list string :=
  let ss := omap own_string (descendants n) in
  if strip
  then List.filter (fun s => PyStr.truthy s) (List.map PyStr.strip ss)
  else ss.

(** [tag.get_text(separator, strip)] and [tag.text] *)
Definition get_text (separator : string) (strip : bool) (n : node) : string :=
  PyStr.join separator (all_strings strip n).

Definition text (n : node) : string := get_text EmptyString false n.

End Soup.

(** ** The records the parser builds

    The Python dictionaries have fixed keys, so they are records here;
    [None] is [None]. *)

Record person := Person {
  forename : string;
  surname : string;
  full_name : string
}.

Record main_paper_record := MainPaper {
  mp_title : string;
  mp_authors : list person;
  mp_year : option string;
  mp_arxiv : option string;
  mp_doi : option string;
  mp_abstract : option string
}.

Record reference := Reference {
  title : string;
  authors : list person;
  year : option string;
  doi : option string;
  arxiv : option string;
  venue : option string;
  pages : option string;
  volume : option string;
  grobid_id : string;
  paper_id : option string;
  citation_count : option nat;
  full_abstract : option string
}.

Record parsed := Parsed {
  main_paper : main_paper_record;
  references : list reference
}.

(** ** [parse_author] *)

Definition forename_text (persName : node) : string :=
  let forenames := Soup.find_all "forename" [] persName in
  match forenames with
  | [] => EmptyString
  | _ => PyStr.join " " (List.map Soup.text forenames)
  end.

Definition surname_text (persName : node) : string :=
  match Soup.find "surname" [] persName with
  | Some surname => Soup.text surname
  | None => EmptyString
  end.

Definition parse_author (author_elem : node) : option person :=
  match Soup.find "persName" [] author_elem with
  | None => None
  | Some persName =>
      let ft := forename_text persName in
      let st := surname_text persName in
      if negb (PyStr.truthy ft) && negb (PyStr.truthy st)
      then None
      else Some {| forename := ft;
                   surname := st;
                   full_name := PyStr.strip (ft +:+ " " +:+ st) |}
  end.

(** The loop shared by the two author lists:
    [for author_elem in elems: author = parse_author(author_elem);
     if author: acc.append(author)]. *)
Definition append_author (acc : list person) (author_elem : node) : list person :=
  match parse_author author_elem with
  | Some author => acc ++ [author]
  | None => acc
  end.

Definition collect_authors (elems : list node) : list person :=
  fold_left append_author elems [].

(** ** [parse_grobid_xml], the main paper *)

Definition main_title (soup : node) : string :=
  match Soup.find "title" [("level", "a"); ("type", "main")] soup with
  | Some title_elem => PyStr.strip (Soup.text title_elem)
  | None => "Unknown"
  end.

Definition main_authors (soup : node) : list person :=
  match Soup.find "sourceDesc" [] soup with
  | Some source_desc => collect_authors (Soup.find_all_children "author" [] source_desc)
  | None => []
  end.

Definition main_year (soup : node) : option string :=
  match Soup.find "date" [("type", "published")] soup with
  | Some date_elem =>
      Some (PyStr.item0 (PyStr.split "-" (Soup.get date_elem "when" EmptyString)))
  | None => None
  end.

(** [elem.text if elem else None] for an [idno] of the given type. *)
Definition idno (ty : string) (scope : node) : option string :=
  match Soup.find "idno" [("type", ty)] scope with
  | Some elem => Some (Soup.text elem)
  | None => None
  end.

Definition main_abstract (soup : node) : option string :=
  match Soup.find "abstract" [] soup with
  | Some abstract_elem => Some (Soup.get_text EmptyString true abstract_elem)
  | None => None
  end.

Definition parse_main_paper (soup : node) : main_paper_record :=
  {| mp_title := main_title soup;
     mp_authors := main_authors soup;
     mp_year := main_year soup;
     mp_arxiv := idno "arXiv" soup;
     mp_doi := idno "DOI" soup;
     mp_abstract := main_abstract soup |}.

(** ** [parse_grobid_xml], the references *)

Definition ref_title (biblStruct : node) : string :=
  let title_elem :=
    match Soup.find "title" [("level", "a")] biblStruct with
    | Some t => Some t
    | None => Soup.find "title" [("level", "m")] biblStruct
    end in
  match title_elem with
  | Some t => PyStr.strip (Soup.text t)
  | None => "No title"
  end.

Definition ref_year (biblStruct : node) : option string :=
  match Soup.find "date" [("type", "published")] biblStruct with
  | Some date_elem =>
      let when := Soup.get date_elem "when" EmptyString in
      if PyStr.truthy when then Some (PyStr.item0 (PyStr.split "-" when)) else None
  | None => None
  end.

Definition ref_venue (biblStruct : node) : option string :=
  match Soup.find "monogr" [] biblStruct with
  | Some monogr =>
      match Soup.find "title" [] monogr with
      | Some venue_elem => Some (PyStr.strip (Soup.text venue_elem))
      | None => None
      end
  | None => None
  end.

Definition ref_pages (biblStruct : node) : option string :=
  match Soup.find "biblScope" [("unit", "page")] biblStruct with
  | Some page_elem =>
      let from_page := Soup.get page_elem "from" EmptyString in
      let to_page := Soup.get page_elem "to" EmptyString in
      if PyStr.truthy from_page && PyStr.truthy to_page
      then Some (from_page +:+ "-" +:+ to_page)
      else if PyStr.truthy from_page then Some from_page
      else None
  | None => None
  end.

Definition ref_volume (biblStruct : node) : option string :=
  match Soup.find "biblScope" [("unit", "volume")] biblStruct with
  | Some volume_elem => Some (PyStr.strip (Soup.text volume_elem))
  | None => None
  end.

(** The dictionary [ref] built by one turn of the loop for an accepted
    [biblStruct]. *)
Definition parse_reference (biblStruct : node) : reference :=
  {| title := ref_title biblStruct;
     authors := collect_authors (Soup.find_all "author" [] biblStruct);
     year := ref_year biblStruct;
     doi := idno "DOI" biblStruct;
     arxiv := idno "arXiv" biblStruct;
     venue := ref_venue biblStruct;
     pages := ref_pages biblStruct;
     volume := ref_volume biblStruct;
     grobid_id := Soup.get biblStruct "xml:id" EmptyString;
     paper_id := None;
     citation_count := None;
     full_abstract := None |}.

(** One turn of [for biblStruct in soup.find_all('biblStruct')]: an entry
    whose [xml:id] does not start with [b] is skipped ([continue]), any
    other is parsed and appended. *)
Definition reference_step (acc : list reference) (biblStruct : node) : list reference :=
  let grobid_id := Soup.get biblStruct "xml:id" EmptyString in
  if negb (PyStr.startswith "b" grobid_id) then acc
  else acc ++ [parse_reference biblStruct].

Definition parse_references (soup : node) : list reference :=
  fold_left reference_step (Soup.find_all "biblStruct" [] soup) [].

(** What [parse_grobid_xml] computes from the tree. *)
Definition parse_soup (soup : node) : parsed :=
  {| main_paper := parse_main_paper soup;
     references := parse_references soup |}.

(** Opening the file and building the tree are the library's: the function
    is given what they do, either an exception or the top-level nodes of
    the document.  There is no [try] in [parse_grobid_xml], so an exception
    leaves it as it is. *)
Section Loader.
Context {exn : Type}.
Variable open_xml : string -> exn + list node.

Definition parse_grobid_xml (xml_path : string) : exn + parsed :=
  match open_xml xml_path with
  | inl e => inl e
  | inr roots => inr (parse_soup (BeautifulSoup roots))
  end.
End Loader.

(** ** Predicates of the statements *)

(** [x] is the first element of [l] that satisfies [P]: a search that goes
    through [l] from the left stops at [x]. *)
Definition first_match {A : Type} (P : A -> bool) (l : list A) (x : A) : Prop :=
  exists before after,
    l = before ++ x :: after /\ P x = true /\ Forall (fun y => P y = false) before.

Definition no_match {A : Type} (P : A -> bool) (l : list A) : Prop :=
  Forall (fun y => P y = false) l.

(** The test of the reference loop, [grobid_id.startswith('b')]. *)
Definition accepted (biblStruct : node) : bool :=
  PyStr.startswith "b" (Soup.get biblStruct "xml:id" EmptyString).

(** The string has a hyphen somewhere. *)
Fixpoint has_hyphen (s : string) : bool :=
  match s with
  | EmptyString => false
  | String c s' => Ascii.eqb c "-" || has_hyphen s'
  end.

(** [v] is the text of the first [idno] of type [ty] below [scope], in
    document order, or [None] when [scope] has no such element. *)
Definition first_idno_text (ty : string) (scope : node) (v : option string) : Prop :=
  match v with
  | Some txt =>
      exists e,
        first_match (Soup.matches "idno" [("type", ty)]) (Soup.descendants scope) e
        /\ txt = Soup.text e
  | None => no_match (Soup.matches "idno" [("type", ty)]) (Soup.descendants scope)
  end.

(** The strings of a list, one after the other. *)
Definition concat_strings (l : list string) : string :=
  foldr String.append EmptyString l.

(** The string does not start with white space. *)
Definition starts_clean (s : string) : bool :=
  match s with
  | EmptyString => true
  | String c _ => negb (PyStr.isspace c)
  end.

(** ** The wording of the specification *)

Definition is_digit (c : ascii) : bool :=
  let n := nat_of_ascii c in Nat.leb 48 n && Nat.leb n 57.

Fixpoint all_digits (s : string) : bool :=
  match s with
  | EmptyString => true
  | String c s' => is_digit c && all_digits s'
  end.

(** The specification's pattern: a lowercase [b] followed by digits. *)
Definition b_then_digits (s : string) : bool :=
  match s with
  | String c ds => Ascii.eqb c "b" && PyStr.truthy ds && all_digits ds
  | EmptyString => false
  end.

(** The rule of the specification: the forename text of an author element
    is the text of its forename elements joined by single spaces, and the
    person is kept when that or the surname text is non-empty once
    trimmed. *)
Definition claimed_forename_text (author_elem : node) : string :=
  PyStr.join " " (List.map Soup.text (Soup.find_all "forename" [] author_elem)).

Definition claimed_surname_text (author_elem : node) : string :=
  match Soup.find "surname" [] author_elem with
  | Some s => Soup.text s
  | None => EmptyString
  end.

Definition claimed_included (author_elem : node) : bool :=
  PyStr.truthy (PyStr.strip (claimed_forename_text author_elem))
  || PyStr.truthy (PyStr.strip (claimed_surname_text author_elem)).

(** White-space normalisation as the specification words it: runs of
    white space become one space, and none is left at either end. *)
Module Claimed.

(** The pieces between white-space characters, empty ones included. *)
Fixpoint split_whitespace (s : string) : list string :=
  match s with
  | EmptyString => [EmptyString]
  | String c s' =>
      if PyStr.isspace c then EmptyString :: split_whitespace s'
      else match split_whitespace s' with
           | [] => [String c EmptyString]
           | p :: ps => String c p :: ps
           end
  end.

Definition normalize_whitespace (s : string) : string :=
  PyStr.join " " (List.filter PyStr.truthy (split_whitespace s)).

End Claimed.

(** ** Sample documents *)

Definition elem (nm : string) (a : list (string * string)) (cs : list node) : node :=
  Tag nm (list_to_map a) cs.

Definition entry_b0 : node :=
  elem "biblStruct" [("xml:id", "b0")]
    [ elem "analytic" []
        [ elem "title" [("level", "a"); ("type", "main")] [NavigableString "Ref one"];
          elem "author" []
            [ elem "persName" []
                [ elem "forename" [("type", "first")] [NavigableString "Ann"];
                  elem "surname" [] [NavigableString "Lee"] ] ];
          elem "author" [] [ elem "affiliation" [] [NavigableString "MIT"] ];
          elem "idno" [("type", "DOI")] [NavigableString "10.1/x"] ];
      elem "monogr" []
        [ elem "title" [("level", "j")] [NavigableString "Journal"];
          elem "imprint" []
            [ elem "biblScope" [("unit", "volume")] [NavigableString "7"];
              elem "biblScope" [("unit", "page"); ("from", "100"); ("to", "110")] [];
              elem "date" [("type", "published"); ("when", "2020-05-01")] [] ] ] ].

Definition entry_bib : node :=
  elem "biblStruct" [("xml:id", "bib")] [].

Definition entry_a1 : node :=
  elem "biblStruct" [("xml:id", "a1")] [].

(** A header without identifiers, followed by three [biblStruct] entries. *)
Definition sample_header : node :=
  elem "teiHeader" []
    [ elem "title" [("level", "a"); ("type", "main")] [NavigableString " A paper "];
      elem "date" [("type", "published"); ("when", "2021-03")] [] ].

Definition sample_document : node :=
  BeautifulSoup
    [ elem "TEI" []
        [ sample_header;
          elem "text" []
            [ elem "listBibl" [] [entry_b0; entry_a1; entry_bib] ] ] ].

Definition date_without_when : node :=
  elem "date" [("type", "published")] [].

Definition document_date_without_when : node :=
  BeautifulSoup
    [ elem "TEI" []
        [ elem "teiHeader" []
            [ elem "title" [("level", "a"); ("type", "main")] [NavigableString "A paper"];
              date_without_when ] ] ].

Definition pages_both : node :=
  elem "biblStruct" [("xml:id", "b1")]
    [ elem "biblScope" [("unit", "volume")] [NavigableString "3"];
      elem "biblScope" [("unit", "page"); ("from", "100"); ("to", "110")] [] ].

Definition pages_from_only : node :=
  elem "biblStruct" [("xml:id", "b2")]
    [ elem "biblScope" [("unit", "page"); ("from", "100")] [] ].

Definition pages_to_only : node :=
  elem "biblStruct" [("xml:id", "b3")]
    [ elem "biblScope" [("unit", "page"); ("to", "110")] [] ].

Definition author_lee : node :=
  elem "author" []
    [ elem "persName" []
        [ elem "forename" [("type", "first")] [NavigableString "Ann"];
          elem "forename" [("type", "middle")] [NavigableString "B."];
          elem "surname" [] [NavigableString "Lee"] ] ].

(** An author element with text but no [persName]. *)
Definition author_without_persName : node :=
  elem "author" []
    [ elem "orgName" [] [NavigableString "The Consortium"];
      elem "forename" [] [NavigableString "Stray"] ].

(** An author whose only name part is a blank forename. *)
Definition author_blank_forename : node :=
  elem "author" []
    [ elem "persName" [] [ elem "forename" [] [NavigableString " "] ] ].


(** A reference whose first title of level [a] is not the main one. *)
Definition entry_subtitle_first : node :=
  elem "biblStruct" [("xml:id", "b4")]
    [ elem "title" [("level", "a"); ("type", "sub")] [NavigableString "A subtitle"];
      elem "title" [("level", "a"); ("type", "main")] [NavigableString "The title"] ].

(** An abstract of one text node with a run of three spaces inside, and
    one of two paragraphs. *)
Definition abstract_two_spaces : node :=
  elem "abstract" []
    [ elem "div" [] [ elem "p" [] [NavigableString " Deep   learning works. "] ] ].

Definition abstract_two_paragraphs : node :=
  elem "abstract" []
    [ elem "p" [] [NavigableString "First."];
      NavigableString " ";
      elem "p" [] [NavigableString "Second."] ].

Definition document_abstract : node :=
  BeautifulSoup
    [ elem "TEI" [] [ elem "teiHeader" [] [ abstract_two_spaces ] ] ].

(** The [monogr] of [entry_b0], and an entry whose [monogr] has no title. *)
Definition monogr_b0 : node :=
  elem "monogr" []
    [ elem "title" [("level", "j")] [NavigableString "Journal"];
      elem "imprint" []
        [ elem "biblScope" [("unit", "volume")] [NavigableString "7"];
          elem "biblScope" [("unit", "page"); ("from", "100"); ("to", "110")] [];
          elem "date" [("type", "published"); ("when", "2020-05-01")] [] ] ].

Definition entry_monogr_without_title : node :=
  elem "biblStruct" [("xml:id", "b6")]
    [ elem "monogr" [] [ elem "imprint" [] [] ] ].

(** What holds of every person the parser returns: a name part is not
    empty, and the full name is the two parts around a space, trimmed. *)
Definition person_ok (p : person) : Prop :=
  (forename p <> EmptyString \/ surname p <> EmptyString)
  /\ full_name p = PyStr.strip (forename p +:+ " " +:+ surname p)
  /\ PyStr.strip (full_name p) = full_name p.

(** A header laid out the way GROBID writes it: the authors of the paper
    are below [sourceDesc/biblStruct/analytic], not directly below
    [sourceDesc]. *)
Definition grobid_source_desc : node :=
  elem "sourceDesc" []
    [ elem "biblStruct" []
        [ elem "analytic" [] [ author_lee ];
          elem "monogr" [] [ elem "imprint" [] [] ] ] ].

Definition grobid_header_document : node :=
  BeautifulSoup
    [ elem "TEI" []
        [ elem "teiHeader" [] [ elem "fileDesc" [] [ grobid_source_desc ] ] ] ].

(** A [sourceDesc] with the authors directly below it. *)
Definition flat_header_document : node :=
  BeautifulSoup
    [ elem "TEI" []
        [ elem "teiHeader" []
            [ elem "sourceDesc" []
                [ author_lee; author_without_persName; author_blank_forename ] ] ] ].

(** An author with a surname only. *)
Definition author_surname_only : node :=
  elem "author" []
    [ elem "persName" [] [ elem "surname" [] [NavigableString "Lee"] ] ].

(** A document whose abstract holds only white space. *)
Definition document_blank_abstract : node :=
  BeautifulSoup
    [ elem "TEI" []
        [ elem "teiHeader" []
            [ elem "abstract" [] [ NavigableString " "; elem "p" [] [] ] ] ] ].

(** ** The summary printed by the script

    The part of the [__main__] block that prints the parsed data (from the
    [MAIN PAPER] banner to the [... and N more] line), as the list of the
    strings given to [print], one per call.  [None] is formatted as the
    word [None], a number in decimal. *)

Module Report.

Definition newline : string := String (ascii_of_nat 10) EmptyString.

(** [s * n] *)
Fixpoint repeat_string (s : string) (n : nat) : string :=
  match n with
  | O => EmptyString
  | S n' => s +:+ repeat_string s n'
  end.

Definition rule : string := repeat_string "=" 80.

(** [f"{v}"] for a value that is a string or [None]. *)
Definition fmt (v : option string) : string :=
  match v with Some s => s | None => "None" end.

(** Truthiness of a value that is a string or [None]. *)
Definition truthy (v : option string) : bool :=
  match v with Some s => PyStr.truthy s | None => false end.

Definition main_author_lines (authors : list person) : list string :=
  match authors with
  | [] => []
  | _ :: _ =>
      let author_names := List.map full_name authors in
      ["Authors: " +:+ PyStr.join ", " (take 5 author_names)]
      ++ (if Nat.ltb 5 (List.length author_names)
          then ["         + " +:+ pretty (List.length author_names - 5) +:+ " more"]
          else [])
  end.

(** The calls of [print] in one turn of the loop over the references. *)
Definition reference_lines (i : nat) (ref : reference) : list string :=
  [newline +:+ "[" +:+ pretty i +:+ "] " +:+ title ref]
  ++ match authors ref with
     | [] => []
     | _ :: _ =>
         let author_names := List.map full_name (authors ref) in
         if Nat.ltb 3 (List.length author_names)
         then ["    Authors: " +:+ PyStr.join ", " (take 3 author_names)
               +:+ " + " +:+ pretty (List.length author_names - 3) +:+ " more"]
         else ["    Authors: " +:+ PyStr.join ", " author_names]
     end
  ++ ["    Year: " +:+ fmt (year ref)]
  ++ (if truthy (arxiv ref) then ["    arXiv: " +:+ fmt (arxiv ref)] else []).

(** [for i, ref in enumerate(references[:5], 1)]: the state is the next
    number and what has been printed. *)
Definition print_reference (st : nat * list string) (ref : reference)
  : nat * list string :=
  (S st.1, st.2 ++ reference_lines st.1 ref).

Definition summary (data : parsed) : list string :=
  let main_paper := main_paper data in
  let references := references data in
  [newline +:+ rule; "MAIN PAPER"; rule; "Title: " +:+ mp_title main_paper]
  ++ main_author_lines (mp_authors main_paper)
  ++ ["Year: " +:+ fmt (mp_year main_paper);
      "arXiv: " +:+ fmt (mp_arxiv main_paper);
      newline +:+ rule;
      "REFERENCES: " +:+ pretty (List.length references) +:+ " found";
      rule]
  ++ (fold_left print_reference (take 5 references) (1, [])).2
  ++ (if Nat.ltb 5 (List.length references)
      then [newline +:+ "... and " +:+ pretty (List.length references - 5) +:+ " more"]
      else []).

(** The headings [[i] title] of a list of references, numbered from [i]. *)
Fixpoint headings_from (i : nat) (refs : list reference) : list string :=
  match refs with
  | [] => []
  | ref :: refs' =>
      (newline +:+ "[" +:+ pretty i +:+ "] " +:+ title ref) :: headings_from (S i) refs'
  end.

End Report.

(** Seven references, numbered by their identifiers. *)
Definition seven_references : list reference :=
  List.map (fun i => parse_reference (elem "biblStruct" [("xml:id", "b" +:+ pretty i)]
                                        [ elem "title" [("level", "a")]
                                            [NavigableString ("Paper " +:+ pretty i)] ]))
    (seq 0 7).

Definition data_seven_references : parsed :=
  {| main_paper := parse_main_paper sample_document;
     references := seven_references |}.

(** An accepted entry that holds another one, followed by a third. *)
Definition nested_entries_document : node :=
  BeautifulSoup
    [ elem "TEI" []
        [ elem "listBibl" []
            [ elem "biblStruct" [("xml:id", "b1")]
                [ elem "note" [] [ elem "biblStruct" [("xml:id", "b2")] [] ] ];
              elem "biblStruct" [("xml:id", "x9")] [];
              elem "biblStruct" [("xml:id", "b3")] [] ] ] ].

(** * Properties *)

(** ** Loops and searches, in closed form *)

Section Searches.
Context {A : Type} (P : A -> bool).

Lemma head_filter_Some (l : list A) (x : A) :
  head (List.filter P l) = Some x <-> first_match P l x.
Proof.
  induction l as [|y l IH]; simpl.
  - split; [discriminate|].
    intros (before & after & Heq & _). by destruct before.
  - destruct (P y) eqn:Hy; simpl.
    + split.
      * intros [= ->]. exists [], l. by repeat split.
      * intros (before & after & Heq & Hx & Hbefore).
        destruct before as [|z before]; simpl in Heq.
        -- by injection Heq as -> _.
        -- injection Heq as -> _. inversion Hbefore; congruence.
    + rewrite IH. split.
      * intros (before & after & -> & Hx & Hbefore).
        exists (y :: before), after. repeat split; auto.
      * intros (before & after & Heq & Hx & Hbefore).
        destruct before as [|z before]; simpl in Heq.
        -- injection Heq as -> _. congruence.
        -- injection Heq as -> ->. inversion Hbefore; subst.
           by exists before, after.
Qed.

Lemma head_filter_None (l : list A) :
  head (List.filter P l) = None <-> no_match P l.
Proof.
  unfold no_match. induction l as [|y l IH]; simpl.
  - split; auto.
  - destruct (P y) eqn:Hy; simpl.
    + split; [discriminate|]. inversion 1; congruence.
    + rewrite IH. split; [by constructor | by inversion 1].
Qed.

Lemma first_match_unique (l : list A) (x y : A) :
  first_match P l x -> first_match P l y -> x = y.
Proof.
  intros Hx Hy. apply head_filter_Some in Hx, Hy. congruence.
Qed.
End Searches.

(** [find] returns the first match in document order. *)
Lemma find_Some nm want scope x :
  Soup.find nm want scope = Some x
  <-> first_match (Soup.matches nm want) (Soup.descendants scope) x.
Proof. apply head_filter_Some. Qed.

Lemma find_None nm want scope :
  Soup.find nm want scope = None
  <-> no_match (Soup.matches nm want) (Soup.descendants scope).
Proof. apply head_filter_None. Qed.

Lemma find_None_find_all nm want scope :
  Soup.find nm want scope = None <-> Soup.find_all nm want scope = [].
Proof.
  unfold Soup.find. destruct (Soup.find_all nm want scope); simpl; split; congruence.
Qed.

(** The appending loops are a map over the elements that pass. *)
Lemma fold_append_author elems acc :
  fold_left append_author elems acc = acc ++ omap parse_author elems.
Proof.
  revert acc. induction elems as [|a elems IH]; intros acc; simpl.
  - by rewrite app_nil_r.
  - rewrite IH. unfold append_author.
    destruct (parse_author a); simpl; [by rewrite <- app_assoc | done].
Qed.

Lemma collect_authors_omap elems :
  collect_authors elems = omap parse_author elems.
Proof. apply fold_append_author. Qed.

Lemma fold_reference_step entries acc :
  fold_left reference_step entries acc
  = acc ++ List.map parse_reference (List.filter accepted entries).
Proof.
  revert acc. induction entries as [|e entries IH]; intros acc; simpl.
  - by rewrite app_nil_r.
  - rewrite IH. unfold reference_step, accepted.
    destruct (PyStr.startswith _ _); simpl; [by rewrite <- app_assoc | done].
Qed.

Lemma parse_references_closed soup :
  parse_references soup
  = List.map parse_reference (List.filter accepted (Soup.find_all "biblStruct" [] soup)).
Proof. apply fold_reference_step. Qed.

(** [parse_grobid_xml] passes the exception of the loader on, and returns
    both records whenever the loader returns a tree. *)
Lemma parse_grobid_xml_raises {exn : Type} (open_xml : string -> exn + list node)
    xml_path e :
  open_xml xml_path = inl e -> parse_grobid_xml open_xml xml_path = inl e.
Proof. intros H. unfold parse_grobid_xml. by rewrite H. Qed.

Lemma parse_grobid_xml_returns {exn : Type} (open_xml : string -> exn + list node)
    xml_path roots :
  open_xml xml_path = inr roots ->
  parse_grobid_xml open_xml xml_path = inr (parse_soup (BeautifulSoup roots)).
Proof. intros H. unfold parse_grobid_xml. by rewrite H. Qed.

(** Strings: emptiness as a proposition. *)
Lemma truthy_true s : PyStr.truthy s = true <-> s <> EmptyString.
Proof. destruct s; cbn; split; congruence. Qed.

Lemma truthy_false s : PyStr.truthy s = false <-> s = EmptyString.
Proof. destruct s; cbn; split; congruence. Qed.

(** ** The acceptance test of the reference loop *)

Lemma accepted_starts_with_b e :
  accepted e = true <-> exists rest, Soup.get e "xml:id" EmptyString = String "b" rest.
Proof.
  unfold accepted.
  destruct (Soup.get e "xml:id" EmptyString) as [|c rest]; cbn [PyStr.startswith].
  - split; [done | intros [? ?]; done].
  - destruct (Ascii.eqb_spec "b" c) as [<-|Hne].
    + split; eauto.
    + split; [done | intros [? ?]; congruence].
Qed.

(** C2, as the claim states it, fails: the entry whose identifier is [bib]
    is among the references although [bib] is not a [b] followed by digits. *)
Lemma reference_with_non_numeric_id :
  ~ (forall soup e,
        In e (Soup.find_all "biblStruct" [] soup) ->
        (In (parse_reference e) (parse_references soup)
         <-> b_then_digits (Soup.get e "xml:id" EmptyString) = true)).
Proof.
  intros H.
  assert (Hin : In entry_bib (Soup.find_all "biblStruct" [] sample_document))
    by (vm_compute; auto).
  destruct (H sample_document entry_bib Hin) as [Himp _].
  assert (Hb : b_then_digits (Soup.get entry_bib "xml:id" EmptyString) = false)
    by (vm_compute; reflexivity).
  rewrite Himp in Hb; [discriminate|].
  vm_compute. auto.
Qed.

(** C2, amended: a [biblStruct] entry of the document is among the
    references if and only if its [xml:id] starts with a lowercase [b],
    whatever follows the [b]. *)
Theorem reference_listed_iff_b_prefix soup e :
  In e (Soup.find_all "biblStruct" [] soup) ->
  (In (parse_reference e) (parse_references soup)
   <-> PyStr.startswith "b" (Soup.get e "xml:id" EmptyString) = true).
Proof.
  intros Hin. rewrite parse_references_closed. split.
  - intros Href. apply in_map_iff in Href as (e' & Heq & He').
    apply filter_In in He' as [_ Hacc].
    apply (f_equal grobid_id) in Heq. simpl in Heq.
    unfold accepted in Hacc. by rewrite <- Heq.
  - intros Hb. apply in_map. apply filter_In. by split.
Qed.

Lemma reference_listed_iff_b_prefix_witness :
  In entry_b0 (Soup.find_all "biblStruct" [] sample_document)
  /\ (In (parse_reference entry_b0) (parse_references sample_document)
      <-> PyStr.startswith "b" (Soup.get entry_b0 "xml:id" EmptyString) = true).
Proof.
  assert (Hin : In entry_b0 (Soup.find_all "biblStruct" [] sample_document))
    by (vm_compute; auto).
  split; [exact Hin | exact (reference_listed_iff_b_prefix sample_document entry_b0 Hin)].
Defined.

(** ** Order of the references *)

(** The descendants of a tag: each child, followed by what lies below
    it, child after child. *)
Lemma descendants_Tag nm a cs :
  Soup.descendants (Tag nm a cs)
  = flat_map (fun c => c :: Soup.descendants c) cs.
Proof.
  cbn [Soup.descendants]. induction cs as [|c cs IH]; [done|].
  cbn [flat_map]. by rewrite <- IH.
Qed.

(** The references found below a node, child by child: the child itself
    when it is an accepted [biblStruct], then those found below it. *)
Lemma parse_references_by_children soup :
  parse_references soup
  = flat_map
      (fun c =>
         (if Soup.matches "biblStruct" [] c && accepted c
          then [parse_reference c] else [])
         ++ parse_references c)
      (Soup.contents soup).
Proof.
  rewrite parse_references_closed. unfold Soup.find_all.
  destruct soup as [s|s|nm a cs]; [done..|].
  rewrite descendants_Tag. cbn [Soup.contents].
  induction cs as [|c cs IH]; [done|].
  cbn [flat_map]. rewrite <- IH, parse_references_closed. unfold Soup.find_all.
  rewrite !List.filter_app, !List.map_app. f_equal.
  cbn [List.filter]. destruct (Soup.matches "biblStruct" [] c); cbn [andb List.filter];
    [|done].
  by destruct (accepted c).
Qed.

(** C7: the references are the accepted [biblStruct] entries, parsed, in
    the order in which the entries occur in the document: an entry comes
    before the entries nested in it, and the entries of a child before
    those of the children to its right.  A document with no [biblStruct]
    has an empty list of references, and the function returns a result
    whenever the tree could be built. *)
Theorem references_in_document_order soup :
  parse_references soup
  = List.map parse_reference
      (List.filter accepted
         (List.filter (Soup.matches "biblStruct" []) (Soup.descendants soup)))
  /\ parse_references soup
     = flat_map
         (fun c =>
            (if Soup.matches "biblStruct" [] c && accepted c
             then [parse_reference c] else [])
            ++ parse_references c)
         (Soup.contents soup)
  /\ (no_match (Soup.matches "biblStruct" []) (Soup.descendants soup) ->
      parse_references soup = [])
  /\ (forall (exn : Type) (open_xml : string -> exn + list node) xml_path roots,
        soup = BeautifulSoup roots ->
        open_xml xml_path = inr roots ->
        parse_grobid_xml open_xml xml_path
        = inr {| main_paper := parse_main_paper soup;
                 references := parse_references soup |}).
Proof.
  split; [apply parse_references_closed|].
  split; [apply parse_references_by_children|]. split.
  - intros Hnone. apply head_filter_None in Hnone.
    rewrite parse_references_closed. unfold Soup.find_all.
    destruct (List.filter (Soup.matches "biblStruct" []) (Soup.descendants soup));
      [reflexivity | discriminate].
  - intros exn open_xml xml_path roots -> Hopen.
    unfold parse_grobid_xml. by rewrite Hopen.
Qed.

(** At [sample_document], where a rejected entry stands between two
    accepted ones, at [nested_entries_document], where an accepted entry
    holds another, and at a document with a header and no [biblStruct]. *)
Lemma references_in_document_order_witness :
  (parse_references sample_document
   = [parse_reference entry_b0; parse_reference entry_bib]
   /\ List.map grobid_id (parse_references sample_document) = ["b0"; "bib"]
   /\ List.map title (parse_references sample_document) = ["Ref one"; "No title"])
  /\ List.map grobid_id (parse_references nested_entries_document)
     = ["b1"; "b2"; "b3"]
  /\ (no_match (Soup.matches "biblStruct" [])
        (Soup.descendants document_date_without_when)
      /\ parse_references document_date_without_when = [])
  /\ parse_grobid_xml
       (fun _ : string => inr (Soup.contents sample_document) : unit + list node)
       "paper.tei.xml"
     = inr {| main_paper := parse_main_paper sample_document;
              references := [parse_reference entry_b0; parse_reference entry_bib] |}.
Proof.
  destruct (references_in_document_order sample_document)
    as (Hclosed & _ & _ & Hok).
  assert (Hsample : parse_references sample_document
                    = [parse_reference entry_b0; parse_reference entry_bib])
    by (rewrite Hclosed; reflexivity).
  assert (Hnone : no_match (Soup.matches "biblStruct" [])
                    (Soup.descendants document_date_without_when))
    by (apply find_None; reflexivity).
  split; [|split; [|split]].
  - split; [exact Hsample|]. rewrite Hsample. split; reflexivity.
  - rewrite (proj1 (proj2 (references_in_document_order nested_entries_document))).
    reflexivity.
  - split; [exact Hnone|].
    exact (proj1 (proj2 (proj2 (references_in_document_order
                                  document_date_without_when))) Hnone).
  - rewrite <- Hsample.
    exact (Hok unit (fun _ => inr (Soup.contents sample_document)) "paper.tei.xml"
             (Soup.contents sample_document) eq_refl eq_refl).
Defined.

(** ** Years *)

(** What [split('-')[0]] gives: the part of the string before its first
    hyphen, the whole string when it has none. *)
Lemma split_not_nil sep s : PyStr.split sep s <> [].
Proof.
  destruct s as [|c s]; cbn [PyStr.split]; [done|].
  destruct (Ascii.eqb c sep); [done|]. by destruct (PyStr.split sep s).
Qed.

Lemma item0_split_before_hyphen s :
  let y := PyStr.item0 (PyStr.split "-" s) in
  has_hyphen y = false
  /\ (s = y \/ exists rest, s = y +:+ String "-" rest).
Proof.
  induction s as [|c s IH]; cbn [PyStr.split].
  - simpl. auto.
  - destruct (Ascii.eqb_spec c "-") as [->|Hne].
    + cbn [PyStr.item0 has_hyphen]. split; [done|]. right. by exists s.
    + destruct IH as [Hno Hsplit].
      destruct (PyStr.split "-" s) as [|p ps] eqn:Hs; [by apply split_not_nil in Hs|].
      cbn [PyStr.item0] in *. split.
      * cbn [has_hyphen]. rewrite Hno.
        by destruct (Ascii.eqb_spec c "-").
      * destruct Hsplit as [->|[rest ->]]; [by left|]. right. by exists rest.
Qed.

(** The year of a reference is absent when the [when] attribute of its
    published date is missing or empty, and otherwise the part of the
    attribute before the first hyphen. *)
Lemma ref_year_rule biblStruct date_elem :
  Soup.find "date" [("type", "published")] biblStruct = Some date_elem ->
  let when := Soup.get date_elem "when" EmptyString in
  (when = EmptyString -> ref_year biblStruct = None)
  /\ (when <> EmptyString ->
      ref_year biblStruct = Some (PyStr.item0 (PyStr.split "-" when))).
Proof.
  intros Hfind when. unfold ref_year. rewrite Hfind. fold when. split; intros Hw.
  - by rewrite Hw.
  - apply truthy_true in Hw. by rewrite Hw.
Qed.

(** The main paper has no such test: whenever the document has a published
    date, the year is a string, the empty one when the attribute is missing
    or empty. *)
Lemma main_year_rule soup date_elem :
  Soup.find "date" [("type", "published")] soup = Some date_elem ->
  let when := Soup.get date_elem "when" EmptyString in
  main_year soup = Some (PyStr.item0 (PyStr.split "-" when))
  /\ (when = EmptyString -> main_year soup = Some EmptyString).
Proof.
  intros Hfind when. unfold main_year. rewrite Hfind. fold when.
  split; [done|]. by intros ->.
Qed.

(** C3, at a header whose published date has no [when] attribute: the
    year of the main paper is the empty string, not [None]; the same date
    element inside a reference gives [None]. *)
Theorem main_year_empty_string_when_attribute_missing :
  Soup.find "date" [("type", "published")] document_date_without_when
  = Some date_without_when
  /\ Soup.attrs date_without_when !! "when" = None
  /\ mp_year (main_paper (parse_soup document_date_without_when)) = Some EmptyString
  /\ year (parse_reference (elem "biblStruct" [("xml:id", "b0")] [date_without_when]))
     = None.
Proof. vm_compute. auto. Qed.

(** ** Pages *)

(** C8: with [page_elem] the first [biblScope] of unit [page] in a
    reference, the pages are [from-to] when both attributes are non-empty,
    [from] when only [from] is, and absent otherwise, also when only [to]
    is given. *)
Theorem pages_rule biblStruct page_elem :
  Soup.find "biblScope" [("unit", "page")] biblStruct = Some page_elem ->
  let from_page := Soup.get page_elem "from" EmptyString in
  let to_page := Soup.get page_elem "to" EmptyString in
  (from_page <> EmptyString -> to_page <> EmptyString ->
   pages (parse_reference biblStruct) = Some (from_page +:+ "-" +:+ to_page))
  /\ (from_page <> EmptyString -> to_page = EmptyString ->
      pages (parse_reference biblStruct) = Some from_page)
  /\ (from_page = EmptyString -> pages (parse_reference biblStruct) = None).
Proof.
  intros Hfind from_page to_page. cbn [pages parse_reference].
  unfold ref_pages. rewrite Hfind. fold from_page to_page.
  split; [|split].
  - intros Hf Ht. apply truthy_true in Hf, Ht. by rewrite Hf, Ht.
  - intros Hf Ht. apply truthy_true in Hf. apply truthy_false in Ht.
    by rewrite Hf, Ht.
  - intros Hf. apply truthy_false in Hf. by rewrite Hf.
Qed.

Lemma pages_rule_witness :
  pages (parse_reference pages_both) = Some "100-110"
  /\ pages (parse_reference pages_from_only) = Some "100"
  /\ pages (parse_reference pages_to_only) = None.
Proof.
  split; [|split].
  - refine (proj1 (pages_rule pages_both
              (elem "biblScope" [("unit", "page"); ("from", "100"); ("to", "110")] [])
              _) _ _); [reflexivity | vm_compute; discriminate ..].
  - refine (proj1 (proj2 (pages_rule pages_from_only
              (elem "biblScope" [("unit", "page"); ("from", "100")] []) _)) _ _);
      [reflexivity | vm_compute; discriminate | reflexivity].
  - refine (proj2 (proj2 (pages_rule pages_to_only
              (elem "biblScope" [("unit", "page"); ("to", "110")] []) _)) _);
      reflexivity.
Defined.

(** ** Authors *)

Lemma forename_text_join persName :
  forename_text persName
  = PyStr.join " " (List.map Soup.text (Soup.find_all "forename" [] persName)).
Proof.
  unfold forename_text. by destruct (Soup.find_all "forename" [] persName).
Qed.

Lemma In_collect_authors elems p :
  In p (collect_authors elems) <-> exists a, In a elems /\ parse_author a = Some p.
Proof.
  rewrite collect_authors_omap, <- list_elem_of_In, list_elem_of_omap.
  by setoid_rewrite list_elem_of_In.
Qed.

Lemma collect_authors_app l1 l2 :
  collect_authors (l1 ++ l2) = collect_authors l1 ++ collect_authors l2.
Proof. rewrite !collect_authors_omap. apply omap_app. Qed.

(** C10: an author element without a [persName] below it gives no person,
    by [None] and not by an exception, and leaves no trace in an author
    list, of the main paper or of a reference, whatever else it holds. *)
Theorem author_without_persName_dropped author_elem :
  Soup.find_all "persName" [] author_elem = [] ->
  parse_author author_elem = None
  /\ (forall before after,
        collect_authors (before ++ author_elem :: after)
        = collect_authors (before ++ after))
  /\ (forall soup source_desc before after,
        Soup.find "sourceDesc" [] soup = Some source_desc ->
        Soup.find_all_children "author" [] source_desc = before ++ author_elem :: after ->
        mp_authors (parse_main_paper soup) = collect_authors (before ++ after))
  /\ (forall biblStruct before after,
        Soup.find_all "author" [] biblStruct = before ++ author_elem :: after ->
        authors (parse_reference biblStruct) = collect_authors (before ++ after)).
Proof.
  intros Hnone.
  assert (Hparse : parse_author author_elem = None).
  { unfold parse_author, Soup.find. by rewrite Hnone. }
  assert (Hdrop : forall before after,
             collect_authors (before ++ author_elem :: after)
             = collect_authors (before ++ after)).
  { intros before after. rewrite !collect_authors_app.
    f_equal. rewrite !collect_authors_omap. simpl. by rewrite Hparse. }
  split; [exact Hparse|]. split; [exact Hdrop|]. split.
  - intros soup source_desc before after Hsd Hchildren.
    cbn [mp_authors parse_main_paper]. unfold main_authors.
    by rewrite Hsd, Hchildren.
  - intros biblStruct before after Hall.
    cbn [authors parse_reference]. by rewrite Hall.
Qed.

Lemma author_without_persName_dropped_witness :
  Soup.find_all "persName" [] author_without_persName = []
  /\ parse_author author_without_persName = None
  /\ collect_authors ([author_lee] ++ author_without_persName :: [author_lee])
     = collect_authors ([author_lee] ++ [author_lee]).
Proof.
  assert (Hnone : Soup.find_all "persName" [] author_without_persName = [])
    by reflexivity.
  destruct (author_without_persName_dropped author_without_persName Hnone)
    as (Hparse & Hdrop & _).
  split; [exact Hnone|]. split; [exact Hparse|].
  exact (Hdrop [author_lee] [author_lee]).
Defined.

(** C4, as the claim states it, fails: a forename that is a single space
    and no surname give a person, although nothing is left of either
    after trimming. *)
Lemma blank_forename_is_included :
  ~ (forall author_elem,
        is_Some (parse_author author_elem) <-> claimed_included author_elem = true).
Proof.
  intros H. destruct (H author_blank_forename) as [Himp _].
  assert (Hsome : is_Some (parse_author author_blank_forename))
    by (vm_compute; eauto).
  specialize (Himp Hsome). vm_compute in Himp. discriminate.
Qed.

(** C4, amended: an author element gives a person if and only if it has a
    [persName] and, under the first one, the forename text (the texts of
    all its forename elements joined by single spaces) or the text of its
    first surname is a non-empty string, white space counting; the author
    list holds exactly the persons so obtained. *)
Theorem person_included_iff elems author_elem :
  (is_Some (parse_author author_elem)
   <-> exists persName,
         first_match (Soup.matches "persName" []) (Soup.descendants author_elem)
           persName
         /\ (PyStr.join " "
               (List.map Soup.text (Soup.find_all "forename" [] persName)) <> EmptyString
             \/ surname_text persName <> EmptyString))
  /\ (forall p,
        In p (collect_authors elems)
        <-> exists a, In a elems /\ parse_author a = Some p).
Proof.
  split; [|intros p; apply In_collect_authors].
  unfold parse_author.
  destruct (Soup.find "persName" [] author_elem) as [persName|] eqn:Hfind.
  - apply find_Some in Hfind. setoid_rewrite <- forename_text_join.
    destruct (PyStr.truthy (forename_text persName)) eqn:Hf;
      destruct (PyStr.truthy (surname_text persName)) eqn:Hs; cbn [negb andb];
      try apply truthy_true in Hf; try apply truthy_false in Hf;
      try apply truthy_true in Hs; try apply truthy_false in Hs.
    1-3: split; [intros _; exists persName; split; [done|tauto] | by eauto].
    split; [by intros [? ?]|].
    intros (pn & Hpn & Hne).
    rewrite (first_match_unique _ _ _ _ Hpn Hfind) in Hne. tauto.
  - apply find_None in Hfind. split; [by intros [? ?]|].
    intros (pn & (before & after & Heq & Hpn & _) & _).
    unfold no_match in Hfind. rewrite Heq in Hfind.
    apply Forall_app in Hfind as [_ Hfind]. inversion Hfind; congruence.
Qed.

Lemma person_included_iff_witness :
  is_Some (parse_author author_blank_forename)
  /\ In {| forename := "Ann B."; surname := "Lee"; full_name := "Ann B. Lee" |}
       (collect_authors [author_lee; author_blank_forename]).
Proof.
  destruct (person_included_iff [author_lee; author_blank_forename]
              author_blank_forename) as [Hone Hall].
  split.
  - apply Hone.
    exists (elem "persName" [] [ elem "forename" [] [NavigableString " "] ]).
    split; [|left; vm_compute; discriminate].
    eexists [], _. split; [reflexivity|]. split; [reflexivity | constructor].
  - apply Hall. exists author_lee. split; [left|]; reflexivity.
Defined.

(** ** What a search criterion accepts *)

(** A node passes [find(name, attrs)] exactly when it is a tag of that
    name that carries each asked attribute with the very value asked for:
    names and values are compared as strings, letter case included. *)
Lemma matches_iff nm want n :
  Soup.matches nm want n = true
  <-> exists a cs, n = Tag nm a cs /\ Forall (fun kv => a !! kv.1 = Some kv.2) want.
Proof.
  unfold Soup.matches. destruct n as [s|s|nm' a cs]; cbn [Soup.is_tag andb].
  1-2: split; [done | by intros (? & ? & ? & _)].
  cbn [Soup.name]. rewrite andb_true_iff, String.eqb_eq, forallb_forall.
  split.
  - intros [-> Hall]. exists a, cs. split; [done|].
    apply List.Forall_forall. intros kv Hkv. specialize (Hall kv Hkv).
    unfold Soup.attr_matches in Hall. cbn [Soup.attrs] in Hall.
    destruct (a !! kv.1); [|done]. apply String.eqb_eq in Hall. by subst.
  - intros (a' & cs' & [= -> -> ->] & Hall). split; [done|].
    intros kv Hkv. rewrite List.Forall_forall in Hall. specialize (Hall kv Hkv).
    unfold Soup.attr_matches. cbn [Soup.attrs]. rewrite Hall.
    apply String.eqb_refl.
Qed.

(** ** Titles *)


(** A reference takes its title from the first title of level [a]
    whatever its type, here a subtitle. *)
Example ref_title_ignores_type :
  title (parse_reference entry_subtitle_first) = "A subtitle".
Proof. reflexivity. Qed.


(** ** Identifiers *)

Lemma idno_first ty scope : first_idno_text ty scope (idno ty scope).
Proof.
  unfold idno. destruct (Soup.find "idno" [("type", ty)] scope) as [e|] eqn:Hfind.
  - exists e. split; [by apply find_Some | done].
  - by apply find_None.
Qed.

(** The type is compared letter for letter. *)
Example idno_type_is_case_sensitive :
  idno "DOI" (elem "biblStruct" [("xml:id", "b5")]
                [ elem "idno" [("type", "doi")] [NavigableString "10.1/lower"];
                  elem "idno" [("type", "DOI")] [NavigableString "10.1/upper"];
                  elem "idno" [("type", "DOI")] [NavigableString "10.1/second"] ])
  = Some "10.1/upper".
Proof. reflexivity. Qed.

(** The search for the identifiers of the main paper is not confined to
    the header. *)
Lemma main_doi_found_outside_header :
  ~ (forall soup header,
        Soup.find "teiHeader" [] soup = Some header ->
        first_idno_text "DOI" header (mp_doi (main_paper (parse_soup soup)))).
Proof.
  intros H. specialize (H sample_document sample_header eq_refl).
  assert (Hdoi : mp_doi (main_paper (parse_soup sample_document)) = Some "10.1/x")
    by reflexivity.
  rewrite Hdoi in H. destruct H as (e & Hfirst & _).
  apply find_Some in Hfirst. discriminate Hfirst.
Qed.

(** C9, at a document whose header holds no identifier and whose first
    reference has a DOI: the main paper is given the DOI of that reference,
    where a search of the header finds none; the authors of the same
    reference, looked for below [sourceDesc] only, are not given to the
    main paper. *)
Theorem main_doi_taken_from_reference :
  Soup.find "teiHeader" [] sample_document = Some sample_header
  /\ Soup.find_all "idno" [] sample_header = []
  /\ idno "DOI" sample_header = None
  /\ mp_doi (main_paper (parse_soup sample_document)) = Some "10.1/x"
  /\ doi (parse_reference entry_b0) = Some "10.1/x"
  /\ authors (parse_reference entry_b0)
     = [{| forename := "Ann"; surname := "Lee"; full_name := "Ann Lee" |}]
  /\ mp_authors (main_paper (parse_soup sample_document)) = [].
Proof. vm_compute. auto 10. Qed.

(** Below the node it is given, a lookup returns the text of the first
    [idno] element, in document order, whose [type] attribute is exactly
    [DOI], respectively [arXiv], and nothing when there is none; a
    reference gives it its [biblStruct], the main paper the whole
    document. *)
Theorem identifier_rule (soup biblStruct : node) :
  first_idno_text "DOI" soup (mp_doi (main_paper (parse_soup soup)))
  /\ first_idno_text "arXiv" soup (mp_arxiv (main_paper (parse_soup soup)))
  /\ first_idno_text "DOI" biblStruct (doi (parse_reference biblStruct))
  /\ first_idno_text "arXiv" biblStruct (arxiv (parse_reference biblStruct))
  /\ (forall ty n,
        Soup.matches "idno" [("type", ty)] n = true
        <-> exists a cs, n = Tag "idno" a cs /\ a !! "type" = Some ty).
Proof.
  repeat (split; [apply idno_first|]).
  intros ty n. rewrite matches_iff. split.
  - intros (a & cs & -> & Hall). exists a, cs. split; [done|]. by inversion Hall.
  - intros (a & cs & -> & Hty). exists a, cs. split; [done|]. by repeat constructor.
Qed.

(** ** The abstract *)

Example abstract_of_document :
  mp_abstract (main_paper (parse_soup document_abstract))
  = Some "Deep   learning works."
  /\ Claimed.normalize_whitespace (Soup.text abstract_two_spaces)
     = "Deep learning works.".
Proof. split; reflexivity. Qed.

Example abstract_of_two_paragraphs :
  main_abstract (BeautifulSoup [abstract_two_paragraphs]) = Some "First.Second."
  /\ Claimed.normalize_whitespace (Soup.text abstract_two_paragraphs)
     = "First. Second.".
Proof. split; reflexivity. Qed.

(** C6, as the claim states it, fails: white space inside a piece of text
    is kept as it is, and the pieces are put together with nothing in
    between. *)
Lemma abstract_not_normalized :
  ~ (forall soup abstract_elem,
        Soup.find "abstract" [] soup = Some abstract_elem ->
        mp_abstract (main_paper (parse_soup soup))
        = Some (Claimed.normalize_whitespace (Soup.text abstract_elem))).
Proof.
  intros H. specialize (H document_abstract abstract_two_spaces eq_refl).
  vm_compute in H. discriminate H.
Qed.

(** Joining with the empty separator is concatenation, and a stripped
    string neither starts nor ends with white space. *)
Lemma append_cons c a b : String c a +:+ b = String c (a +:+ b).
Proof. reflexivity. Qed.

Lemma append_empty_l b : EmptyString +:+ b = b.
Proof. reflexivity. Qed.

Lemma append_empty_r s : s +:+ EmptyString = s.
Proof. induction s as [|c s IH]; [done|]. by rewrite append_cons, IH. Qed.

Lemma join_empty_separator l : PyStr.join EmptyString l = concat_strings l.
Proof.
  induction l as [|s l IH]; [done|].
  destruct l as [|s' l].
  - cbn [PyStr.join concat_strings foldr]. by rewrite append_empty_r.
  - change (PyStr.join EmptyString (s :: s' :: l))
      with (s +:+ EmptyString +:+ PyStr.join EmptyString (s' :: l)).
    rewrite IH. reflexivity.
Qed.

Lemma lstrip_starts_clean s : starts_clean (PyStr.lstrip s) = true.
Proof.
  induction s as [|c s IH]; [done|]. cbn [PyStr.lstrip].
  destruct (PyStr.isspace c) eqn:Hc; [done|]. cbn [starts_clean]. by rewrite Hc.
Qed.

Lemma lstrip_clean s : starts_clean s = true -> PyStr.lstrip s = s.
Proof.
  destruct s as [|c s]; [done|]. cbn [starts_clean PyStr.lstrip].
  by destruct (PyStr.isspace c).
Qed.

Lemma rstrip_starts_clean s :
  starts_clean s = true -> starts_clean (PyStr.rstrip s) = true.
Proof.
  destruct s as [|c s]; [done|]. cbn [starts_clean PyStr.rstrip].
  destruct (PyStr.isspace c) eqn:Hc; [done|]. cbn [andb starts_clean]. by rewrite Hc.
Qed.

Lemma rstrip_idempotent s : PyStr.rstrip (PyStr.rstrip s) = PyStr.rstrip s.
Proof.
  induction s as [|c s IH]; [done|]. cbn [PyStr.rstrip].
  destruct (PyStr.isspace c && PyStr.is_empty (PyStr.rstrip s)) eqn:Hc; [done|].
  cbn [PyStr.rstrip]. by rewrite IH, Hc.
Qed.

Lemma rstrip_append a b :
  b <> EmptyString -> PyStr.rstrip b = b -> PyStr.rstrip (a +:+ b) = a +:+ b.
Proof.
  intros Hb Hclean. induction a as [|c a IH]; [done|].
  rewrite append_cons. cbn [PyStr.rstrip]. rewrite IH.
  destruct (a +:+ b) eqn:Hab; [|by rewrite andb_false_r].
  destruct a; [by rewrite append_empty_l in Hab | by rewrite append_cons in Hab].
Qed.

Lemma strip_clean s : starts_clean s = true -> PyStr.rstrip s = s -> PyStr.strip s = s.
Proof. intros Hs He. unfold PyStr.strip. by rewrite lstrip_clean. Qed.

Lemma strip_is_clean s :
  starts_clean (PyStr.strip s) = true /\ PyStr.rstrip (PyStr.strip s) = PyStr.strip s.
Proof.
  unfold PyStr.strip. split.
  - apply rstrip_starts_clean, lstrip_starts_clean.
  - apply rstrip_idempotent.
Qed.

Lemma concat_clean l :
  Forall (fun p => p <> EmptyString /\ starts_clean p = true /\ PyStr.rstrip p = p) l ->
  starts_clean (concat_strings l) = true
  /\ PyStr.rstrip (concat_strings l) = concat_strings l.
Proof.
  induction 1 as [|p l (Hne & Hs & He) Hl [IHs IHe]]; [done|].
  cbn [concat_strings foldr]. fold (concat_strings l). split.
  - destruct p; [done | exact Hs].
  - destruct (concat_strings l) eqn:Hc.
    + by rewrite append_empty_r.
    + by apply rstrip_append.
Qed.

(** C6, amended: the abstract is absent when the document has no abstract
    element; otherwise it is made from the text nodes below the first one,
    in document order: each is stripped of leading and trailing white space,
    those left empty are dropped, and the rest are concatenated with
    nothing in between.  White space inside a text node is untouched; the
    result has no white space at either end. *)
Theorem abstract_rule soup :
  (forall abstract_elem,
      first_match (Soup.matches "abstract" []) (Soup.descendants soup) abstract_elem ->
      let pieces :=
        List.filter PyStr.truthy
          (List.map PyStr.strip
             (omap Soup.own_string (Soup.descendants abstract_elem))) in
      mp_abstract (main_paper (parse_soup soup)) = Some (concat_strings pieces)
      /\ PyStr.strip (concat_strings pieces) = concat_strings pieces)
  /\ (no_match (Soup.matches "abstract" []) (Soup.descendants soup) ->
      mp_abstract (main_paper (parse_soup soup)) = None).
Proof.
  split.
  - intros abstract_elem Hfirst pieces. apply find_Some in Hfirst.
    cbn [mp_abstract main_paper parse_soup parse_main_paper].
    unfold main_abstract. rewrite Hfirst. split.
    + unfold Soup.get_text, Soup.all_strings. by rewrite join_empty_separator.
    + assert (Hclean : Forall (fun p => p <> EmptyString /\ starts_clean p = true
                                        /\ PyStr.rstrip p = p) pieces).
      { apply List.Forall_forall. intros p Hp.
        apply filter_In in Hp as [Hp Hne]. apply in_map_iff in Hp as (s & <- & _).
        split; [by apply truthy_true | apply strip_is_clean]. }
      apply concat_clean in Hclean as [Hs He]. by apply strip_clean.
  - intros Hnone. apply find_None in Hnone.
    cbn [mp_abstract main_paper parse_soup parse_main_paper].
    unfold main_abstract. by rewrite Hnone.
Qed.

Lemma abstract_rule_witness :
  first_match (Soup.matches "abstract" []) (Soup.descendants document_abstract)
    abstract_two_spaces
  /\ mp_abstract (main_paper (parse_soup document_abstract))
     = Some (concat_strings ["Deep   learning works."])
  /\ no_match (Soup.matches "abstract" []) (Soup.descendants sample_document)
  /\ mp_abstract (main_paper (parse_soup sample_document)) = None.
Proof.
  assert (Hfirst : first_match (Soup.matches "abstract" [])
                     (Soup.descendants document_abstract) abstract_two_spaces)
    by (apply find_Some; reflexivity).
  assert (Hnone : no_match (Soup.matches "abstract" [])
                    (Soup.descendants sample_document))
    by (apply find_None; reflexivity).
  split; [exact Hfirst|]. split.
  - exact (proj1 (proj1 (abstract_rule document_abstract) abstract_two_spaces Hfirst)).
  - split; [exact Hnone|].
    exact (proj2 (abstract_rule sample_document) Hnone).
Defined.

(** * Further properties of the parser *)

(** ** The tree *)

(** Induction over a tree, with the property known for every child. *)
Lemma node_children_ind (P : node -> Prop) :
  (forall s, P (NavigableString s)) ->
  (forall s, P (Comment s)) ->
  (forall nm a cs, Forall P cs -> P (Tag nm a cs)) ->
  forall n, P n.
Proof.
  intros Hstring Hcomment Htag. fix IH 1. intros [s|s|nm a cs].
  - apply Hstring.
  - apply Hcomment.
  - apply Htag. induction cs as [|c cs IHcs]; constructor; [apply IH | apply IHcs].
Qed.

Lemma In_descendants n d :
  In d (Soup.descendants n)
  <-> exists c, In c (Soup.contents n) /\ (d = c \/ In d (Soup.descendants c)).
Proof.
  destruct n as [s|s|nm a cs].
  1-2: split; [done | by intros (c & [] & _)].
  rewrite descendants_Tag, in_flat_map. cbn [Soup.contents].
  split; intros (c & Hc & Hd); exists c; (split; [done|]).
  - destruct Hd as [<-|Hd]; auto.
  - destruct Hd as [->|Hd]; [by left | by right].
Qed.

(** What lies below a descendant lies below the node itself. *)
Lemma descendants_trans n c d :
  In c (Soup.descendants n) -> In d (Soup.descendants c) -> In d (Soup.descendants n).
Proof.
  revert c d. induction n as [s|s|nm a cs IH] using node_children_ind;
    intros c d Hc Hd; [done..|].
  apply In_descendants in Hc as (k & Hk & Hc). apply In_descendants.
  exists k. split; [done|]. right. destruct Hc as [->|Hc]; [done|].
  cbn [Soup.contents] in Hk. rewrite List.Forall_forall in IH. by apply (IH k Hk c d).
Qed.

Lemma In_find_all nm want scope x :
  In x (Soup.find_all nm want scope)
  <-> In x (Soup.descendants scope) /\ Soup.matches nm want x = true.
Proof. apply filter_In. Qed.

Lemma first_match_In {A : Type} (P : A -> bool) (l : list A) (x : A) :
  first_match P l x -> In x l /\ P x = true.
Proof.
  intros (before & after & -> & Hx & _). split; [|done].
  apply in_or_app. right. by left.
Qed.

Lemma no_match_In {A : Type} (P : A -> bool) (l : list A) :
  no_match P l <-> forall x, In x l -> P x = false.
Proof. apply List.Forall_forall. Qed.

(** A search that finds nothing below a node finds nothing below any of
    its descendants. *)
Lemma find_None_below nm want scope inner :
  In inner (Soup.descendants scope) ->
  Soup.find nm want scope = None -> Soup.find nm want inner = None.
Proof.
  intros Hinner Hnone. apply find_None, no_match_In. intros x Hx.
  apply find_None in Hnone. rewrite no_match_In in Hnone.
  apply Hnone. by apply (descendants_trans scope inner x).
Qed.

(** The references come from accepted [biblStruct] entries of the
    document. *)
Lemma In_parse_references soup r :
  In r (parse_references soup)
  <-> exists e, In e (Soup.descendants soup)
                /\ Soup.matches "biblStruct" [] e = true
                /\ accepted e = true
                /\ r = parse_reference e.
Proof.
  rewrite parse_references_closed, in_map_iff. split.
  - intros (e & <- & He). apply filter_In in He as [He Hacc].
    apply In_find_all in He as [He Hm]. by exists e.
  - intros (e & He & Hm & Hacc & ->). exists e. split; [done|].
    apply filter_In. split; [|done]. by apply In_find_all.
Qed.

(** ** Venue and volume *)

(** X1: the venue of a reference is the trimmed text of the first title
    (of any level) below the first [monogr] of the entry, and is absent
    when the entry has no [monogr] or that [monogr] has no title. *)
Theorem venue_rule biblStruct :
  (forall monogr t,
      first_match (Soup.matches "monogr" []) (Soup.descendants biblStruct) monogr ->
      first_match (Soup.matches "title" []) (Soup.descendants monogr) t ->
      venue (parse_reference biblStruct) = Some (PyStr.strip (Soup.text t)))
  /\ (forall monogr,
        first_match (Soup.matches "monogr" []) (Soup.descendants biblStruct) monogr ->
        no_match (Soup.matches "title" []) (Soup.descendants monogr) ->
        venue (parse_reference biblStruct) = None)
  /\ (no_match (Soup.matches "monogr" []) (Soup.descendants biblStruct) ->
      venue (parse_reference biblStruct) = None).
Proof.
  cbn [venue parse_reference]. unfold ref_venue. split; [|split].
  - intros monogr t Hm Ht. apply find_Some in Hm, Ht. by rewrite Hm, Ht.
  - intros monogr Hm Ht. apply find_Some in Hm. apply find_None in Ht.
    by rewrite Hm, Ht.
  - intros Hm. apply find_None in Hm. by rewrite Hm.
Qed.

Lemma venue_rule_witness :
  venue (parse_reference entry_b0) = Some "Journal"
  /\ venue (parse_reference entry_monogr_without_title) = None
  /\ venue (parse_reference entry_bib) = None.
Proof.
  split; [|split].
  - refine (proj1 (venue_rule entry_b0) monogr_b0
              (elem "title" [("level", "j")] [NavigableString "Journal"]) _ _);
      apply find_Some; reflexivity.
  - refine (proj1 (proj2 (venue_rule entry_monogr_without_title))
              (elem "monogr" [] [ elem "imprint" [] [] ]) _ _);
      [apply find_Some | apply find_None]; reflexivity.
  - refine (proj2 (proj2 (venue_rule entry_bib)) _). apply find_None. reflexivity.
Defined.

(** X2: the volume of a reference is the trimmed text of the first
    [biblScope] of unit [volume] in the entry, and is absent when the
    entry has none. *)
Theorem volume_rule biblStruct :
  (forall volume_elem,
      first_match (Soup.matches "biblScope" [("unit", "volume")])
        (Soup.descendants biblStruct) volume_elem ->
      volume (parse_reference biblStruct) = Some (PyStr.strip (Soup.text volume_elem)))
  /\ (no_match (Soup.matches "biblScope" [("unit", "volume")])
        (Soup.descendants biblStruct) ->
      volume (parse_reference biblStruct) = None).
Proof.
  cbn [volume parse_reference]. unfold ref_volume. split.
  - intros volume_elem Hv. apply find_Some in Hv. by rewrite Hv.
  - intros Hv. apply find_None in Hv. by rewrite Hv.
Qed.

Lemma volume_rule_witness :
  volume (parse_reference entry_b0) = Some "7"
  /\ volume (parse_reference pages_from_only) = None.
Proof.
  split.
  - refine (proj1 (volume_rule entry_b0)
              (elem "biblScope" [("unit", "volume")] [NavigableString "7"]) _).
    apply find_Some. reflexivity.
  - refine (proj2 (volume_rule pages_from_only) _). apply find_None. reflexivity.
Defined.

(** ** What every reference record satisfies *)

(** X3: every record among the references has an identifier that starts
    with [b], hence is not empty, and has its three enrichment fields
    absent. *)
Theorem reference_invariants soup r :
  In r (parse_references soup) ->
  PyStr.startswith "b" (grobid_id r) = true
  /\ grobid_id r <> EmptyString
  /\ paper_id r = None /\ citation_count r = None /\ full_abstract r = None.
Proof.
  intros Hr. apply In_parse_references in Hr as (e & _ & _ & Hacc & ->).
  cbn [grobid_id paper_id citation_count full_abstract parse_reference].
  split; [exact Hacc|]. split; [|done].
  apply accepted_starts_with_b in Hacc as [rest ->]. done.
Qed.

Lemma reference_invariants_witness :
  In (parse_reference entry_bib) (parse_references sample_document)
  /\ PyStr.startswith "b" (grobid_id (parse_reference entry_bib)) = true
  /\ paper_id (parse_reference entry_bib) = None.
Proof.
  assert (Hin : In (parse_reference entry_bib) (parse_references sample_document))
    by (vm_compute; auto).
  destruct (reference_invariants sample_document _ Hin) as (Hb & _ & Hp & _).
  split; [exact Hin|]. split; [exact Hb | exact Hp].
Defined.

Lemma filter_map_comm {A B : Type} (f : A -> B) (P : B -> bool) (l : list A) :
  List.filter P (List.map f l) = List.map f (List.filter (fun x => P (f x)) l).
Proof.
  induction l as [|x l IH]; [done|]. cbn [List.map List.filter].
  destruct (P (f x)); cbn [List.map]; by rewrite IH.
Qed.

(** X4: the identifiers of the references are the [xml:id] values of the
    [biblStruct] entries of the document, in document order, with those
    that do not start with [b] (a missing one counts as empty) left out;
    there are never more references than [biblStruct] entries. *)
Theorem reference_ids soup :
  List.map grobid_id (parse_references soup)
  = List.filter (PyStr.startswith "b")
      (List.map (fun e => Soup.get e "xml:id" EmptyString)
         (Soup.find_all "biblStruct" [] soup))
  /\ List.length (parse_references soup)
     <= List.length (Soup.find_all "biblStruct" [] soup).
Proof.
  rewrite parse_references_closed. split.
  - rewrite filter_map_comm, List.map_map. reflexivity.
  - rewrite List.length_map. apply List.filter_length_le.
Qed.

(** ** Persons *)

Lemma lstrip_append a b :
  PyStr.lstrip (a +:+ b)
  = if PyStr.is_empty (PyStr.lstrip a) then PyStr.lstrip b else PyStr.lstrip a +:+ b.
Proof.
  induction a as [|c a IH]; [done|].
  rewrite append_cons. cbn [PyStr.lstrip].
  destruct (PyStr.isspace c); [exact IH | done].
Qed.

Lemma rstrip_append_cases a b :
  PyStr.rstrip (a +:+ b)
  = if PyStr.is_empty (PyStr.rstrip b) then PyStr.rstrip a else a +:+ PyStr.rstrip b.
Proof.
  induction a as [|c a IH].
  - rewrite append_empty_l. by destruct (PyStr.rstrip b).
  - rewrite append_cons. cbn [PyStr.rstrip]. rewrite IH.
    destruct (PyStr.rstrip b) as [|c' r] eqn:Hb; cbn [PyStr.is_empty]; [done|].
    rewrite append_cons.
    destruct (a +:+ String c' r) eqn:Hab; [|by rewrite andb_false_r].
    destruct a; [by rewrite append_empty_l in Hab | by rewrite append_cons in Hab].
Qed.

Lemma strip_append_space s : PyStr.strip (s +:+ " ") = PyStr.strip s.
Proof.
  unfold PyStr.strip. rewrite lstrip_append.
  destruct (PyStr.lstrip s) as [|c r] eqn:Hs; cbn [PyStr.is_empty]; [done|].
  by rewrite rstrip_append_cases.
Qed.

Lemma strip_space_append s : PyStr.strip (" " +:+ s) = PyStr.strip s.
Proof. reflexivity. Qed.

Lemma strip_idempotent s : PyStr.strip (PyStr.strip s) = PyStr.strip s.
Proof. apply strip_clean; apply strip_is_clean. Qed.

Lemma strip_fixed_clean s :
  PyStr.strip s = s -> starts_clean s = true /\ PyStr.rstrip s = s.
Proof. intros <-. apply strip_is_clean. Qed.

Lemma parse_author_ok author_elem p :
  parse_author author_elem = Some p -> person_ok p.
Proof.
  unfold parse_author.
  destruct (Soup.find "persName" [] author_elem) as [persName|]; [|done].
  destruct (PyStr.truthy (forename_text persName)) eqn:Hf;
    destruct (PyStr.truthy (surname_text persName)) eqn:Hs;
    cbn [negb andb]; intros [= <-]; unfold person_ok;
    cbn [forename surname full_name];
    (split; [|split; [done | apply strip_idempotent]]).
  - left. by apply truthy_true.
  - left. by apply truthy_true.
  - right. by apply truthy_true.
Qed.

(** X5: every person in the author list of the main paper or of a
    reference has a non-empty forename or a non-empty surname, and a full
    name that is the forename, a space and the surname, trimmed as a whole,
    so without white space at either end. *)
Theorem listed_persons_ok :
  (forall soup p, In p (mp_authors (main_paper (parse_soup soup))) -> person_ok p)
  /\ (forall biblStruct p, In p (authors (parse_reference biblStruct)) -> person_ok p).
Proof.
  split.
  - intros soup p. cbn [mp_authors main_paper parse_soup parse_main_paper].
    unfold main_authors. destruct (Soup.find "sourceDesc" [] soup); [|done].
    intros Hp. apply In_collect_authors in Hp as (a & _ & Ha).
    by apply (parse_author_ok a).
  - intros biblStruct p. cbn [authors parse_reference].
    intros Hp. apply In_collect_authors in Hp as (a & _ & Ha).
    by apply (parse_author_ok a).
Qed.

Lemma listed_persons_ok_witness :
  person_ok {| forename := "Ann B."; surname := "Lee"; full_name := "Ann B. Lee" |}
  /\ person_ok {| forename := "Ann"; surname := "Lee"; full_name := "Ann Lee" |}.
Proof.
  split.
  - apply (proj1 listed_persons_ok flat_header_document). left. reflexivity.
  - apply (proj2 listed_persons_ok entry_b0). left. reflexivity.
Defined.

(** X6: the full name of a person without surname is the trimmed
    forename, that of a person without forename the trimmed surname (the
    space put between the parts is trimmed away); when both parts are
    non-empty and have no white space at their ends, the full name is the
    forename, one space, the surname. *)
Theorem full_name_forms author_elem p :
  parse_author author_elem = Some p ->
  (surname p = EmptyString -> full_name p = PyStr.strip (forename p))
  /\ (forename p = EmptyString -> full_name p = PyStr.strip (surname p))
  /\ (forename p <> EmptyString -> surname p <> EmptyString ->
      PyStr.strip (forename p) = forename p ->
      PyStr.strip (surname p) = surname p ->
      full_name p = forename p +:+ " " +:+ surname p).
Proof.
  intros Hp. apply parse_author_ok in Hp as (_ & -> & _). split; [|split].
  - intros ->. by rewrite strip_append_space.
  - intros ->. by rewrite append_empty_l, strip_space_append.
  - intros Hf Hs Hfc Hsc.
    apply strip_fixed_clean in Hfc as [Hfc _].
    apply strip_fixed_clean in Hsc as [_ Hsc].
    apply strip_clean.
    + destruct (forename p); [done|]. by rewrite append_cons.
    + apply rstrip_append; [done|]. by apply (rstrip_append " ").
Qed.

Lemma full_name_forms_witness :
  parse_author author_surname_only
  = Some {| forename := EmptyString; surname := "Lee"; full_name := "Lee" |}
  /\ full_name {| forename := EmptyString; surname := "Lee"; full_name := "Lee" |}
     = PyStr.strip "Lee".
Proof.
  assert (Hp : parse_author author_surname_only
               = Some {| forename := EmptyString; surname := "Lee";
                         full_name := "Lee" |}) by reflexivity.
  split; [exact Hp|].
  exact (proj1 (proj2 (full_name_forms author_surname_only _ Hp)) eq_refl).
Defined.

(** X7: an author list holds one person for each author element that
    gives one, in the order of the elements: all author elements below a
    [biblStruct] for a reference, the author elements that are children of
    the first [sourceDesc] for the main paper.  It is never longer than the
    list of elements. *)
Theorem authors_in_element_order :
  (forall biblStruct,
      authors (parse_reference biblStruct)
      = omap parse_author (Soup.find_all "author" [] biblStruct)
      /\ List.length (authors (parse_reference biblStruct))
         <= List.length (Soup.find_all "author" [] biblStruct))
  /\ (forall soup source_desc,
        Soup.find "sourceDesc" [] soup = Some source_desc ->
        mp_authors (main_paper (parse_soup soup))
        = omap parse_author (Soup.find_all_children "author" [] source_desc)
        /\ List.length (mp_authors (main_paper (parse_soup soup)))
           <= List.length (Soup.find_all_children "author" [] source_desc)).
Proof.
  assert (Hlen : forall elems : list node,
             List.length (omap parse_author elems) <= List.length elems).
  { induction elems as [|a elems IH]; [done|]. cbn [omap list_omap].
    destruct (parse_author a); cbn [List.length]; lia. }
  split.
  - intros biblStruct. cbn [authors parse_reference].
    rewrite collect_authors_omap. split; [done | apply Hlen].
  - intros soup source_desc Hsd.
    cbn [mp_authors main_paper parse_soup parse_main_paper].
    unfold main_authors. rewrite Hsd, collect_authors_omap.
    split; [done | apply Hlen].
Qed.

Lemma authors_in_element_order_witness :
  mp_authors (main_paper (parse_soup flat_header_document))
  = omap parse_author [author_lee; author_without_persName; author_blank_forename].
Proof.
  refine (proj1 (proj2 authors_in_element_order flat_header_document
                   (elem "sourceDesc" []
                      [ author_lee; author_without_persName; author_blank_forename ])
                   _)).
  reflexivity.
Defined.

(** X8: the authors of the main paper are looked for among the children
    of the first [sourceDesc] only: without a [sourceDesc], or when none of
    its children is an author element, the list is empty, whatever author
    elements lie deeper. *)
Theorem main_authors_direct_children soup :
  (no_match (Soup.matches "sourceDesc" []) (Soup.descendants soup) ->
   mp_authors (main_paper (parse_soup soup)) = [])
  /\ (forall source_desc,
        first_match (Soup.matches "sourceDesc" []) (Soup.descendants soup) source_desc ->
        no_match (Soup.matches "author" []) (Soup.contents source_desc) ->
        mp_authors (main_paper (parse_soup soup)) = []).
Proof.
  cbn [mp_authors main_paper parse_soup parse_main_paper]. unfold main_authors.
  split.
  - intros Hnone. apply find_None in Hnone. by rewrite Hnone.
  - intros source_desc Hsd Hchildren. apply find_Some in Hsd. rewrite Hsd.
    unfold Soup.find_all_children.
    apply head_filter_None in Hchildren.
    by destruct (List.filter (Soup.matches "author" []) (Soup.contents source_desc)).
Qed.

Lemma main_authors_direct_children_witness :
  Soup.find_all "author" [] grobid_source_desc = [author_lee]
  /\ mp_authors (main_paper (parse_soup grobid_header_document)) = [].
Proof.
  split; [reflexivity|].
  refine (proj2 (main_authors_direct_children grobid_header_document)
            grobid_source_desc _ _).
  - apply find_Some. reflexivity.
  - repeat constructor.
Defined.

(** ** Trimmed fields *)

(** X9: the title of the main paper and the title, venue and volume of a
    reference never start or end with white space: trimming them again
    changes nothing. *)
Theorem text_fields_trimmed :
  (forall soup,
      PyStr.strip (mp_title (main_paper (parse_soup soup)))
      = mp_title (main_paper (parse_soup soup)))
  /\ (forall biblStruct,
        PyStr.strip (title (parse_reference biblStruct))
        = title (parse_reference biblStruct)
        /\ (forall v, venue (parse_reference biblStruct) = Some v -> PyStr.strip v = v)
        /\ (forall v, volume (parse_reference biblStruct) = Some v -> PyStr.strip v = v)).
Proof.
  split.
  - intros soup. cbn [mp_title main_paper parse_soup parse_main_paper].
    unfold main_title. destruct (Soup.find "title" _ soup);
      [apply strip_idempotent | reflexivity].
  - intros biblStruct. cbn [title venue volume parse_reference]. split; [|split].
    + unfold ref_title.
      destruct (Soup.find "title" [("level", "a")] biblStruct);
        [apply strip_idempotent|].
      destruct (Soup.find "title" [("level", "m")] biblStruct);
        [apply strip_idempotent | reflexivity].
    + intros v. unfold ref_venue.
      destruct (Soup.find "monogr" [] biblStruct) as [monogr|]; [|done].
      destruct (Soup.find "title" [] monogr); [|done].
      intros [= <-]. apply strip_idempotent.
    + intros v. unfold ref_volume.
      destruct (Soup.find "biblScope" _ biblStruct); [|done].
      intros [= <-]. apply strip_idempotent.
Qed.

Lemma text_fields_trimmed_witness :
  venue (parse_reference entry_b0) = Some "Journal"
  /\ PyStr.strip "Journal" = "Journal".
Proof.
  assert (Hv : venue (parse_reference entry_b0) = Some "Journal") by reflexivity.
  split; [exact Hv|].
  exact (proj1 (proj2 (proj2 text_fields_trimmed entry_b0)) "Journal" Hv).
Defined.

(** ** Years, again *)

(** X10: the year of a reference is absent exactly when the entry has no
    published date or the [when] attribute of the first one is missing or
    empty; a year that is present has no hyphen, and the attribute is that
    year alone or that year followed by a hyphen and more. *)
Theorem reference_year_shape biblStruct :
  let first_date d :=
    first_match (Soup.matches "date" [("type", "published")])
      (Soup.descendants biblStruct) d in
  (year (parse_reference biblStruct) = None
   <-> no_match (Soup.matches "date" [("type", "published")])
         (Soup.descendants biblStruct)
       \/ exists d, first_date d /\ Soup.get d "when" EmptyString = EmptyString)
  /\ (forall y,
        year (parse_reference biblStruct) = Some y ->
        exists d, first_date d
                  /\ Soup.get d "when" EmptyString <> EmptyString
                  /\ has_hyphen y = false
                  /\ (Soup.get d "when" EmptyString = y
                      \/ exists rest,
                           Soup.get d "when" EmptyString = y +:+ String "-" rest)).
Proof.
  intros first_date. subst first_date. cbn [year parse_reference].
  unfold ref_year.
  destruct (Soup.find "date" [("type", "published")] biblStruct) as [d|] eqn:Hd.
  - apply find_Some in Hd.
    destruct (PyStr.truthy (Soup.get d "when" EmptyString)) eqn:Hw.
    + apply truthy_true in Hw. split.
      * split; [done|]. intros [Hnone|(d' & Hd' & Hempty)].
        -- apply find_None in Hnone. apply find_Some in Hd. congruence.
        -- rewrite (first_match_unique _ _ _ _ Hd' Hd) in Hempty. congruence.
      * intros y [= <-]. exists d. split; [done|]. split; [done|].
        apply item0_split_before_hyphen.
    + apply truthy_false in Hw. split; [|done].
      split; [|done]. intros _. right. by exists d.
  - apply find_None in Hd. split; [|done]. split; [by left | done].
Qed.

Lemma reference_year_shape_witness :
  year (parse_reference entry_b0) = Some "2020" /\ has_hyphen "2020" = false.
Proof.
  assert (Hy : year (parse_reference entry_b0) = Some "2020") by reflexivity.
  split; [exact Hy|].
  destruct (proj2 (reference_year_shape entry_b0) "2020" Hy) as (d & _ & _ & Hno & _).
  exact Hno.
Defined.

(** X11: the year of the main paper is absent exactly when the document,
    reference entries included, has no published date at all; otherwise
    it is a string without hyphen, and the [when] attribute of the first
    published date of the document (taken as empty when missing) is that
    string alone or that string followed by a hyphen and more. *)
Theorem main_year_shape soup :
  (mp_year (main_paper (parse_soup soup)) = None
   <-> no_match (Soup.matches "date" [("type", "published")]) (Soup.descendants soup))
  /\ (forall y,
        mp_year (main_paper (parse_soup soup)) = Some y ->
        exists d,
          first_match (Soup.matches "date" [("type", "published")])
            (Soup.descendants soup) d
          /\ has_hyphen y = false
          /\ (Soup.get d "when" EmptyString = y
              \/ exists rest,
                   Soup.get d "when" EmptyString = y +:+ String "-" rest)).
Proof.
  cbn [mp_year main_paper parse_soup parse_main_paper]. unfold main_year.
  destruct (Soup.find "date" [("type", "published")] soup) as [d|] eqn:Hd.
  - split.
    + split; [done|]. intros Hnone. apply find_None in Hnone. congruence.
    + intros y [= <-]. exists d. split; [by apply find_Some|].
      apply item0_split_before_hyphen.
  - split; [|done]. split; [|done]. intros _. by apply find_None.
Qed.

Lemma main_year_shape_witness :
  mp_year (main_paper (parse_soup sample_document)) = Some "2021"
  /\ has_hyphen "2021" = false.
Proof.
  assert (Hy : mp_year (main_paper (parse_soup sample_document)) = Some "2021")
    by reflexivity.
  split; [exact Hy|].
  destruct (proj2 (main_year_shape sample_document) "2021" Hy) as (d & _ & Hno & _).
  exact Hno.
Defined.

(** ** The empty abstract *)

Lemma concat_strings_empty l :
  concat_strings l = EmptyString <-> Forall (fun s => s = EmptyString) l.
Proof.
  induction l as [|s l IH]; [by split|].
  cbn [concat_strings foldr]. fold (concat_strings l). split.
  - intros Hc. destruct s; [|by rewrite append_cons in Hc].
    rewrite append_empty_l in Hc. constructor; [done | by apply IH].
  - inversion 1; subst. rewrite append_empty_l. by apply IH.
Qed.

Lemma filter_truthy_nil l :
  List.filter PyStr.truthy (List.map PyStr.strip l) = []
  <-> Forall (fun s => PyStr.strip s = EmptyString) l.
Proof.
  induction l as [|s l IH]; [by split|]. cbn [List.map List.filter].
  destruct (PyStr.truthy (PyStr.strip s)) eqn:Hs.
  - apply truthy_true in Hs. split; [done | by inversion 1].
  - apply truthy_false in Hs. rewrite IH. split; [by constructor | by inversion 1].
Qed.

(** X12: when the document has an abstract element, the abstract is the
    empty string, not absent, exactly when every text node below the first
    abstract element is empty or white space. *)
Theorem abstract_empty_iff soup abstract_elem :
  first_match (Soup.matches "abstract" []) (Soup.descendants soup) abstract_elem ->
  (mp_abstract (main_paper (parse_soup soup)) = Some EmptyString
   <-> Forall (fun s => PyStr.strip s = EmptyString)
         (omap Soup.own_string (Soup.descendants abstract_elem))).
Proof.
  intros Hfirst. apply find_Some in Hfirst.
  cbn [mp_abstract main_paper parse_soup parse_main_paper].
  unfold main_abstract. rewrite Hfirst.
  rewrite <- filter_truthy_nil.
  set (pieces := List.filter PyStr.truthy
                   (List.map PyStr.strip
                      (omap Soup.own_string (Soup.descendants abstract_elem)))).
  change (Soup.get_text EmptyString true abstract_elem)
    with (PyStr.join EmptyString pieces).
  rewrite join_empty_separator. split.
  - intros [= Hc]. apply concat_strings_empty in Hc.
    destruct pieces as [|p rest] eqn:Hp; [done|].
    assert (Hin : In p pieces) by (rewrite Hp; by left).
    apply filter_In in Hin as [_ Hne]. inversion Hc; subst. done.
  - by intros ->.
Qed.

Lemma abstract_empty_iff_witness :
  mp_abstract (main_paper (parse_soup document_blank_abstract)) = Some EmptyString.
Proof.
  refine (proj2 (abstract_empty_iff document_blank_abstract
                   (elem "abstract" [] [ NavigableString " "; elem "p" [] [] ]) _) _).
  - apply find_Some. reflexivity.
  - repeat constructor.
Defined.

(** ** The main paper and the references *)

(** X13: the fields of the main paper are searched in the whole document,
    so they are present as soon as one reference has them: when the DOI,
    the arXiv identifier or the year of the main paper is absent, so is
    that field in every reference. *)
Theorem main_absent_then_references_absent soup r :
  In r (parse_references soup) ->
  (mp_doi (main_paper (parse_soup soup)) = None -> doi r = None)
  /\ (mp_arxiv (main_paper (parse_soup soup)) = None -> arxiv r = None)
  /\ (mp_year (main_paper (parse_soup soup)) = None -> year r = None).
Proof.
  intros Hr. apply In_parse_references in Hr as (e & He & _ & _ & ->).
  cbn [mp_doi mp_arxiv mp_year main_paper parse_soup parse_main_paper
       doi arxiv year parse_reference].
  split; [|split].
  - unfold idno. destruct (Soup.find "idno" [("type", "DOI")] soup) eqn:Hs; [done|].
    intros _. by rewrite (find_None_below _ _ soup e He Hs).
  - unfold idno. destruct (Soup.find "idno" [("type", "arXiv")] soup) eqn:Hs; [done|].
    intros _. by rewrite (find_None_below _ _ soup e He Hs).
  - unfold main_year, ref_year.
    destruct (Soup.find "date" [("type", "published")] soup) eqn:Hs; [done|].
    intros _. by rewrite (find_None_below _ _ soup e He Hs).
Qed.

Lemma main_absent_then_references_absent_witness :
  In (parse_reference entry_b0) (parse_references sample_document)
  /\ mp_arxiv (main_paper (parse_soup sample_document)) = None
  /\ arxiv (parse_reference entry_b0) = None.
Proof.
  assert (Hin : In (parse_reference entry_b0) (parse_references sample_document))
    by (vm_compute; auto).
  assert (Hnone : mp_arxiv (main_paper (parse_soup sample_document)) = None)
    by reflexivity.
  split; [exact Hin|]. split; [exact Hnone|].
  exact (proj1 (proj2 (main_absent_then_references_absent sample_document _ Hin)) Hnone).
Defined.

(** ** Pages, again *)

Lemma startswith_append a b : PyStr.startswith a (a +:+ b) = true.
Proof.
  induction a as [|c a IH]; [done|]. rewrite append_cons.
  cbn [PyStr.startswith]. by rewrite Ascii.eqb_refl.
Qed.

(** X14: the pages of a reference, when present, are not the empty
    string: they start with the non-empty [from] attribute of the first
    [biblScope] of unit [page] of the entry. *)
Theorem pages_shape biblStruct p :
  pages (parse_reference biblStruct) = Some p ->
  p <> EmptyString
  /\ exists page_elem,
       first_match (Soup.matches "biblScope" [("unit", "page")])
         (Soup.descendants biblStruct) page_elem
       /\ Soup.get page_elem "from" EmptyString <> EmptyString
       /\ PyStr.startswith (Soup.get page_elem "from" EmptyString) p = true.
Proof.
  cbn [pages parse_reference]. unfold ref_pages.
  destruct (Soup.find "biblScope" [("unit", "page")] biblStruct) as [e|] eqn:He;
    [|done].
  apply find_Some in He.
  destruct (PyStr.truthy (Soup.get e "from" EmptyString)) eqn:Hf; [|done].
  apply truthy_true in Hf.
  destruct (PyStr.truthy (Soup.get e "to" EmptyString)); cbn [andb]; intros [= <-].
  - split.
    + destruct (Soup.get e "from" EmptyString); [done|]. by rewrite append_cons.
    + exists e. split; [done|]. split; [done|]. apply startswith_append.
  - split; [done|]. exists e. split; [done|]. split; [done|].
    rewrite <- (append_empty_r (Soup.get e "from" EmptyString)) at 2.
    apply startswith_append.
Qed.

Lemma pages_shape_witness :
  pages (parse_reference pages_both) = Some "100-110" /\ "100-110" <> EmptyString.
Proof.
  assert (Hp : pages (parse_reference pages_both) = Some "100-110") by reflexivity.
  split; [exact Hp|]. exact (proj1 (pages_shape pages_both "100-110" Hp)).
Defined.

(** * The printed summary *)

Lemma fold_print_reference refs i out :
  (fold_left Report.print_reference refs (i, out)).2
  = out ++ (fix blocks (i : nat) (l : list reference) : list string :=
              match l with
              | [] => []
              | ref :: l' => Report.reference_lines i ref ++ blocks (S i) l'
              end) i refs.
Proof.
  revert i out. induction refs as [|ref refs IH]; intros i out.
  - cbn [fold_left snd]. by rewrite app_nil_r.
  - cbn [fold_left]. unfold Report.print_reference at 2. cbn [fst snd].
    rewrite IH. by rewrite <- app_assoc.
Qed.

(** A test that rejects the indented lines keeps, of the lines of one
    reference, the heading at most. *)
Lemma filter_reference_lines (P : string -> bool) i ref :
  (forall s, PyStr.startswith "    " s = true -> P s = false) ->
  List.filter P (Report.reference_lines i ref)
  = List.filter P [Report.newline +:+ "[" +:+ pretty i +:+ "] " +:+ title ref].
Proof.
  intros HP. unfold Report.reference_lines.
  destruct (authors ref) as [|a l]; cbv zeta;
    [|destruct (Nat.ltb 3 _)];
    destruct (Report.truthy (arxiv ref));
    cbn [app List.filter];
    repeat match goal with
      | |- context [P ?line] => rewrite (HP line) by reflexivity
      end;
    reflexivity.
Qed.

Lemma filter_main_author_lines (P : string -> bool) l :
  (forall s, PyStr.startswith "A" s = true -> P s = false) ->
  (forall s, PyStr.startswith " " s = true -> P s = false) ->
  List.filter P (Report.main_author_lines l) = [].
Proof.
  intros HA Hsp. unfold Report.main_author_lines.
  destruct l as [|a l]; [done|]. cbv zeta.
  destruct (Nat.ltb 5 _); cbn [app List.filter];
    repeat match goal with
      | |- context [P ?line] =>
          first [rewrite (HA line) by reflexivity | rewrite (Hsp line) by reflexivity]
      end;
    reflexivity.
Qed.

Lemma startswith_first_char c p s :
  PyStr.startswith (String c p) s = true -> exists s', s = String c s'.
Proof.
  destruct s as [|c' s']; cbn [PyStr.startswith]; [done|].
  destruct (Ascii.eqb_spec c c') as [<-|]; [eauto | done].
Qed.

Lemma startswith_other_char c c' p p' s :
  c <> c' -> PyStr.startswith (String c p) s = true ->
  PyStr.startswith (String c' p') s = false.
Proof.
  intros Hne Hs. apply startswith_first_char in Hs as [s' ->].
  cbn [PyStr.startswith]. by destruct (Ascii.eqb_spec c' c) as [->|].
Qed.

(** X15: of the references, the summary prints the first five only, all
    of them when there are fewer: its lines that start with a line feed and
    an opening bracket are the headings of those references, numbered from
    1, in order. *)
Theorem summary_lists_first_five data :
  List.filter (PyStr.startswith (Report.newline +:+ "[")) (Report.summary data)
  = Report.headings_from 1 (take 5 (references data)).
Proof.
  set (P := PyStr.startswith (Report.newline +:+ "[")).
  assert (Hspace : forall s, PyStr.startswith " " s = true -> P s = false).
  { intros s. by apply startswith_other_char. }
  assert (Hindent : forall s, PyStr.startswith "    " s = true -> P s = false).
  { intros s. by apply startswith_other_char. }
  assert (HA : forall s, PyStr.startswith "A" s = true -> P s = false).
  { intros s. by apply startswith_other_char. }
  unfold Report.summary. cbv zeta. rewrite !List.filter_app.
  rewrite (filter_main_author_lines P _ HA Hspace).
  rewrite fold_print_reference.
  assert (Hhead : List.filter P
            [Report.newline +:+ Report.rule; "MAIN PAPER"; Report.rule;
             "Title: " +:+ mp_title (main_paper data)] = []) by reflexivity.
  assert (Hmid : List.filter P
            ["Year: " +:+ Report.fmt (mp_year (main_paper data));
             "arXiv: " +:+ Report.fmt (mp_arxiv (main_paper data));
             Report.newline +:+ Report.rule;
             "REFERENCES: " +:+ pretty (List.length (references data)) +:+ " found";
             Report.rule] = []) by reflexivity.
  assert (Hmore : List.filter P
            (if Nat.ltb 5 (List.length (references data))
             then [Report.newline +:+ "... and "
                   +:+ pretty (List.length (references data) - 5) +:+ " more"]
             else []) = []) by (by destruct (Nat.ltb 5 _)).
  rewrite Hhead, Hmid, Hmore. cbn [app]. rewrite app_nil_r.
  assert (Hblocks : forall refs i,
            List.filter P
              ((fix blocks (i : nat) (l : list reference) : list string :=
                  match l with
                  | [] => []
                  | ref :: l' => Report.reference_lines i ref ++ blocks (S i) l'
                  end) i refs) = Report.headings_from i refs).
  { induction refs as [|ref refs IH]; intros i; [done|].
    rewrite List.filter_app, (filter_reference_lines P i ref Hindent), IH.
    reflexivity. }
  apply Hblocks.
Qed.

(** X16: after the references, the summary prints a line
    [... and N more] exactly when there are more than five, and [N] is
    their number less five; no other line starts with a line feed and a
    dot. *)
Theorem summary_more_line data :
  List.filter (PyStr.startswith (Report.newline +:+ ".")) (Report.summary data)
  = if Nat.ltb 5 (List.length (references data))
    then [Report.newline +:+ "... and "
          +:+ pretty (List.length (references data) - 5) +:+ " more"]
    else [].
Proof.
  set (P := PyStr.startswith (Report.newline +:+ ".")).
  assert (Hspace : forall s, PyStr.startswith " " s = true -> P s = false).
  { intros s. by apply startswith_other_char. }
  assert (Hindent : forall s, PyStr.startswith "    " s = true -> P s = false).
  { intros s. by apply startswith_other_char. }
  assert (HA : forall s, PyStr.startswith "A" s = true -> P s = false).
  { intros s. by apply startswith_other_char. }
  unfold Report.summary. cbv zeta. rewrite !List.filter_app.
  rewrite (filter_main_author_lines P _ HA Hspace).
  rewrite fold_print_reference.
  assert (Hhead : List.filter P
            [Report.newline +:+ Report.rule; "MAIN PAPER"; Report.rule;
             "Title: " +:+ mp_title (main_paper data)] = []) by reflexivity.
  assert (Hmid : List.filter P
            ["Year: " +:+ Report.fmt (mp_year (main_paper data));
             "arXiv: " +:+ Report.fmt (mp_arxiv (main_paper data));
             Report.newline +:+ Report.rule;
             "REFERENCES: " +:+ pretty (List.length (references data)) +:+ " found";
             Report.rule] = []) by reflexivity.
  rewrite Hhead, Hmid. cbn [app].
  assert (Hblocks : forall refs i,
            List.filter P
              ((fix blocks (i : nat) (l : list reference) : list string :=
                  match l with
                  | [] => []
                  | ref :: l' => Report.reference_lines i ref ++ blocks (S i) l'
                  end) i refs) = []).
  { induction refs as [|ref refs IH]; intros i; [done|].
    by rewrite List.filter_app, (filter_reference_lines P i ref Hindent), IH. }
  rewrite Hblocks. cbn [app].
  by destruct (Nat.ltb 5 _).
Qed.

Example summary_of_seven_references :
  List.filter (PyStr.startswith (Report.newline +:+ "["))
    (Report.summary data_seven_references)
  = [ Report.newline +:+ "[1] Paper 0"; Report.newline +:+ "[2] Paper 1";
      Report.newline +:+ "[3] Paper 2"; Report.newline +:+ "[4] Paper 3";
      Report.newline +:+ "[5] Paper 4" ]
  /\ last (Report.summary data_seven_references)
     = Some (Report.newline +:+ "... and 2 more").
Proof. split; vm_compute; reflexivity. Qed.
